(** * RemoteAgent: the mitmproxy request filter ([docker/proxy/filter.py])

    A shallow embedding of the filter script and the properties of its
    policy: safe methods pass, mutating methods are checked against a
    whitelist of domains, blocked requests are answered with a 403 and
    recorded in an audit file.

    Conventions of the embedding.
    - A Python [str] is the list of its code points, [str]; a literal
      ["GET"] stands for the list of the codes of its characters.
    - A Python [set] of strings is a [gset str]; a [for] loop over it
      runs over [elements], and every result proved below is independent
      of that order.
    - The module globals, the audit file and mitmproxy's event log
      ([ctx.log]) form the [state], threaded through a state-and-exception
      monad [M].  What the operating system answers to one invocation (the
      clock, whether [makedirs], [open] and [write] raise, and how much of
      the data a write that raises had put in the file) is an [environ]
      record handed to the hook.
    - Reading [flow.request.content] decodes the body and may raise: the
      request carries the outcome of that read, a value or an exception. *)

From stdpp Require Import gmap list.
From Stdlib Require Import Strings.Byte NArith ZArith DecimalZ Lia.

(** * Part I: the embedding *)

(** ** Python strings *)

Definition str : Type := list N.

Module StrLiteral.

(** The shape of a literal: the codes of its characters, one after the
    other. *)
Inductive literal :=
| Empty
| Char (c : N) (rest : literal).

Fixpoint parse (l : list Byte.byte) : literal :=
  match l with
  | [] => Empty
  | b :: rest => Char (Byte.to_N b) (parse rest)
  end.

Fixpoint print (s : literal) : option (list Byte.byte) :=
  match s with
  | Empty => Some []
  | Char c rest =>
      match Byte.of_N c, print rest with
      | Some b, Some l => Some (b :: l)
      | _, _ => None
      end
  end.

End StrLiteral.

Declare Scope str_scope.
Delimit Scope str_scope with str.
Bind Scope str_scope with str.
#[warnings="-via-type-remapping,-via-type-mismatch"]
String Notation str StrLiteral.parse StrLiteral.print
  (via StrLiteral.literal
   mapping [[nil] => StrLiteral.Empty, [cons] => StrLiteral.Char]) : str_scope.
Local Open Scope str_scope.

Module PyStr.

(** [s.endswith(suffix)]: the last [len(suffix)] characters of [s] are
    [suffix]; false when [suffix] is longer than [s]. *)
Definition endswith (s suffix : str) : bool :=
  (length suffix <=? length s)%nat
  && bool_decide (drop (length s - length suffix) s = suffix).

(** The decimal digits of a numeral. *)
Fixpoint digits (d : Decimal.uint) : str :=
  match d with
  | Decimal.Nil => []
  | Decimal.D0 d => 48%N :: digits d
  | Decimal.D1 d => 49%N :: digits d
  | Decimal.D2 d => 50%N :: digits d
  | Decimal.D3 d => 51%N :: digits d
  | Decimal.D4 d => 52%N :: digits d
  | Decimal.D5 d => 53%N :: digits d
  | Decimal.D6 d => 54%N :: digits d
  | Decimal.D7 d => 55%N :: digits d
  | Decimal.D8 d => 56%N :: digits d
  | Decimal.D9 d => 57%N :: digits d
  end.

(** [str(n)] for an [int]. *)
Definition str_int (n : Z) : str :=
  match Z.to_int n with
  | Decimal.Pos Decimal.Nil => "0"
  | Decimal.Pos d => digits d
  | Decimal.Neg Decimal.Nil => "-0"
  | Decimal.Neg d => 45%N :: digits d
  end.

(** [sep.join(parts)]. *)
Fixpoint join (sep : str) (parts : list str) : str :=
  match parts with
  | [] => []
  | [p] => p
  | p :: rest => p ++ sep ++ join sep rest
  end.

End PyStr.


(** ** [json.dumps] on the dictionaries the filter writes

    The filter serialises flat dictionaries with string keys and values
    that are strings or integers, with the default options
    ([ensure_ascii=True], separators [", "] and [": "]). *)

Module Json.

Inductive value :=
| Str (s : str)
| Int (n : Z).

(** A [dict], in insertion order. *)
Definition dict := list (str * value).

Definition dquote : N := 34.
Definition backslash : N := 92.
Definition newline : N := 10.

(** The lowercase hexadecimal digit of [n mod 16]. *)
Definition hexdigit (n : N) : N :=
  let d := (n mod 16)%N in
  if (d <? 10)%N then (48 + d)%N else (87 + d)%N.

(** ['\\u{0:04x}'.format(n)], for [n] below [0x10000]. *)
Definition u_escape (n : N) : str :=
  [ backslash; 117%N;
    hexdigit (n / 4096); hexdigit (n / 256); hexdigit (n / 16); hexdigit n ].

(** The replacement of one character: [ESCAPE_ASCII] matches a backslash,
    a double quote and everything outside [' '..'~']; [ESCAPE_DCT] names
    seven of them, the others become [\uXXXX], as a surrogate pair from
    [0x10000] on. *)
Definition escape (c : N) : str :=
  if (c =? 92)%N then [backslash; backslash]
  else if (c =? 34)%N then [backslash; dquote]
  else if (c =? 8)%N then "\b"
  else if (c =? 12)%N then "\f"
  else if (c =? 10)%N then "\n"
  else if (c =? 13)%N then "\r"
  else if (c =? 9)%N then "\t"
  else if ((32 <=? c) && (c <=? 126))%N then [c]
  else if (c <? 65536)%N then u_escape c
  else
    let n := (c - 65536)%N in
    let s1 := N.lor 55296 (N.land (N.shiftr n 10) 1023) in
    let s2 := N.lor 56320 (N.land n 1023) in
    u_escape s1 ++ u_escape s2.

Fixpoint escape_all (s : str) : str :=
  match s with
  | [] => []
  | c :: rest => escape c ++ escape_all rest
  end.

(** [encode_basestring_ascii] *)
Definition encode_str (s : str) : str :=
  dquote :: escape_all s ++ [dquote].

Definition encode (v : value) : str :=
  match v with
  | Str s => encode_str s
  | Int n => PyStr.str_int n
  end.

Definition encode_item (kv : str * value) : str :=
  encode_str (fst kv) ++ ": " ++ encode (snd kv).

Definition dumps (d : dict) : str :=
  "{" ++ PyStr.join ", " (map encode_item d) ++ "}".

Definition keys (d : dict) : list str := map fst d.

(** Characters of the printable ASCII range, [' '..'~']. *)
Definition printable (c : N) : bool :=
  ((32 <=? c) && (c <=? 126))%N.

Definition all_chars (P : N -> bool) (s : str) : bool := forallb P s.

(** A string that holds no line break. *)
Definition single_line (s : str) : bool :=
  all_chars (fun c => negb (c =? newline)%N) s.

End Json.

(** ** Exceptions, the program state and the monad *)

(** A raised [Exception]: its class and [str(e)]. *)
Record exn := Exception { exn_class : str; exn_str : str }.

Inductive result (A : Type) :=
| Ok (a : A)
| Raise (e : exn).
Arguments Ok {A} a.
Arguments Raise {A} e.

(** mitmproxy's event log, [ctx.log]. *)
Inductive level := info | warn | error.
Definition log_record : Type := level * str.

Record state := State {
  ALLOWED_DOMAINS : gset str;      (* module global, set at import *)
  log_dir_exists : bool;           (* os.path.dirname(LOG_PATH) is present *)
  log_file : option str;           (* contents of LOG_PATH; None: no file *)
  ctx_log : list log_record        (* what was handed to ctx.log, oldest first *)
}.

(** What the operating system answers during one call of the hook.  A
    write that fails may have put the first characters of the data into
    the file before it raised: the fault carries how many. *)
Record environ := Environ {
  utcnow_isoformat : str;               (* datetime.utcnow().isoformat() *)
  makedirs_raises : option exn;         (* os.makedirs(..., exist_ok=True) *)
  open_raises : option exn;             (* open(LOG_PATH, "a") *)
  write_raises : option (nat * exn)     (* f.write(...) and the close of f *)
}.

Definition M (A : Type) : Type := state -> result A * state.

#[global] Instance M_ret : MRet M := fun A a st => (Ok a, st).
#[global] Instance M_bind : MBind M := fun A B k m st =>
  match m st with
  | (Ok a, st') => k a st'
  | (Raise e, st') => (Raise e, st')
  end.

Definition raise {A} (e : exn) : M A := fun st => (Raise e, st).

(** [try: body except Exception as e: handler e] *)
Definition try_except {A} (body : M A) (handler : exn -> M A) : M A :=
  fun st =>
    match body st with
    | (Ok a, st') => (Ok a, st')
    | (Raise e, st') => handler e st'
    end.

Definition gets {A} (f : state -> A) : M A := fun st => (Ok (f st), st).
Definition modify (f : state -> state) : M unit := fun st => (Ok tt, f st).

(** The outcome of reading an attribute that may raise. *)
Definition read {A} (r : result A) : M A := fun st => (r, st).

Definition set_log_dir_exists (b : bool) (st : state) : state :=
  State (ALLOWED_DOMAINS st) b (log_file st) (ctx_log st).
Definition set_log_file (f : option str) (st : state) : state :=
  State (ALLOWED_DOMAINS st) (log_dir_exists st) f (ctx_log st).
Definition add_ctx_log (r : log_record) (st : state) : state :=
  State (ALLOWED_DOMAINS st) (log_dir_exists st) (log_file st) (ctx_log st ++ [r]).

(** The file with [data] put at its end. *)
Definition append_to_log (data : str) (st : state) : state :=
  set_log_file (Some (default [] (log_file st) ++ data)) st.

Module ctx.
Definition log (l : level) (msg : str) : M unit := modify (add_ctx_log (l, msg)).
End ctx.

(** The three file operations of the audit write. *)
Module os.

(** [os.makedirs(os.path.dirname(LOG_PATH), exist_ok=True)] *)
Definition makedirs (w : environ) : M unit :=
  match makedirs_raises w with
  | Some e => raise e
  | None => modify (set_log_dir_exists true)
  end.

(** [open(LOG_PATH, "a")]: an absent file is created empty. *)
Definition open_append (w : environ) : M unit :=
  match open_raises w with
  | Some e => raise e
  | None => modify (append_to_log [])
  end.

(** [f.write(data)], and the close at the end of the [with] block.  When
    it raises, the first [k] characters of [data] may already be in the
    file. *)
Definition write (w : environ) (data : str) : M unit :=
  match write_raises w with
  | Some (k, e) => modify (append_to_log (take k data));; raise e
  | None => modify (append_to_log data)
  end.

End os.

(** ** The proxy's view of a request *)

Module http.

Record Request := {
  method : str;
  host : str;
  path : str;
  (* reading [content] gives the decoded body as bytes, or None, or raises
     ValueError when the Content-Encoding of the body cannot be decoded *)
  content : result (option (list Byte.byte))
}.

(** The arguments of [http.Response.make]. *)
Record Response := make {
  status_code : Z;
  body : str;
  headers : list (str * str)
}.

Record HTTPFlow := {
  request : Request;
  response : option Response
}.

(** [flow.response = r] *)
Definition set_response (flow : HTTPFlow) (r : Response) : HTTPFlow :=
  {| request := request flow; response := Some r |}.

End http.

(** ** The filter *)

Definition SAFE_METHODS : gset str := {[ "GET"; "HEAD"; "OPTIONS" ]}.

Definition MUTATION_METHODS : gset str := {[ "POST"; "PUT"; "DELETE"; "PATCH" ]}.

(** The dictionary [log_entry] of [log_blocked_request]. *)
Definition log_entry (timestamp method host path : str) (body_size : Z)
  : Json.dict :=
  [ ("timestamp", Json.Str timestamp);
    ("method", Json.Str method);
    ("host", Json.Str host);
    ("path", Json.Str path);
    ("body_size", Json.Int body_size);
    ("action", Json.Str "BLOCKED") ].

Definition log_blocked_request (w : environ)
    (method host path : str) (body_size : Z) : M unit :=
  let timestamp := utcnow_isoformat w in
  let entry := log_entry timestamp method host path body_size in
  try_except
    (os.makedirs w;;
     os.open_append w;;
     os.write w (Json.dumps entry ++ [Json.newline]))
    (fun e => ctx.log error ("Failed to write log: " ++ exn_str e));;
  ctx.log warn ("BLOCKED: " ++ method ++ " " ++ host ++ path
                ++ " (body: " ++ PyStr.str_int body_size ++ " bytes)").

(** The [for allowed in ALLOWED_DOMAINS] loop, with its early return. *)
Fixpoint subdomain_loop (host : str) (domains : list str) : bool :=
  match domains with
  | [] => false
  | allowed :: rest =>
      if PyStr.endswith host ("." ++ allowed) then true
      else subdomain_loop host rest
  end.

Definition is_domain_allowed (host : str) : M bool :=
  domains ← gets ALLOWED_DOMAINS;
  if bool_decide (host ∈ domains) then mret true
  else mret (subdomain_loop host (elements domains)).

(** [len(content) if content else 0], for the value [content] read from
    the request. *)
Definition body_size_of (content : option (list Byte.byte)) : Z :=
  match content with
  | None | Some [] => 0                      (* None and b'' are falsy *)
  | Some c => Z.of_nat (length c)
  end.

(** The 403 answer built for a blocked request. *)
Definition forbidden (method host : str) : http.Response :=
  http.make 403
    (Json.dumps
       [ ("error", Json.Str "Request blocked by network filter");
         ("message", Json.Str (method ++ " requests to " ++ host ++ " are not allowed"));
         ("hint", Json.Str "Add this domain to whitelist.json if needed") ])
    [ ("Content-Type", "application/json") ].

(** The hook.  On the blocked path [flow.request.content] is read before
    anything is logged or attached, outside any [try]: when the read
    raises, the exception leaves the hook.  (The source reads the attribute
    once for the test and once for [len]; both reads answer alike.) *)
Definition request (w : environ) (flow : http.HTTPFlow) : M http.HTTPFlow :=
  let method := http.method (http.request flow) in
  let host := http.host (http.request flow) in
  let path := http.path (http.request flow) in
  if bool_decide (method ∈ SAFE_METHODS) then
    ctx.log info ("ALLOWED: " ++ method ++ " " ++ host ++ path);;
    mret flow
  else if bool_decide (method ∈ MUTATION_METHODS) then
    allowed ← is_domain_allowed host;
    if (allowed : bool) then
      ctx.log info ("ALLOWED (whitelisted): " ++ method ++ " " ++ host ++ path);;
      mret flow
    else
      content ← read (http.content (http.request flow));
      let body_size := body_size_of content in
      log_blocked_request w method host path body_size;;
      mret (http.set_response flow (forbidden method host))
  else
    ctx.log warn ("UNKNOWN METHOD: " ++ method ++ " " ++ host ++ path);;
    mret flow.

(** ** Loading the whitelist *)

Module Whitelist.

(** What [json.load] returns. *)
#[warnings="-register-all"]
Inductive json :=
| JNull
| JBool (b : bool)
| JInt (n : Z)
| JFloat (literal : str)
| JStr (s : str)
| JArr (items : list json)
| JObj (members : list (str * json)).   (* in document order *)

(** The hashable values among them: what a [set] built from JSON holds.
    Python takes [True], [1] and [1.0] for one element; they are kept apart
    here, which only changes how many non-string members a set has. *)
Inductive atom :=
| ANone
| ABool (b : bool)
| AInt (n : Z)
| AFloat (literal : str)
| AStr (s : str).

#[global] Instance atom_eq_dec : EqDecision atom.
Proof. solve_decision. Defined.

Definition atom_enc (a : atom) : unit + bool + Z + str + str :=
  match a with
  | ANone => inl (inl (inl (inl tt)))
  | ABool b => inl (inl (inl (inr b)))
  | AInt n => inl (inl (inr n))
  | AFloat l => inl (inr l)
  | AStr s => inr s
  end.

Definition atom_dec (x : unit + bool + Z + str + str) : atom :=
  match x with
  | inl (inl (inl (inl _))) => ANone
  | inl (inl (inl (inr b))) => ABool b
  | inl (inl (inr n)) => AInt n
  | inl (inr l) => AFloat l
  | inr s => AStr s
  end.

#[global] Instance atom_countable : Countable atom.
Proof. apply (inj_countable' atom_enc atom_dec). now intros []. Defined.

(** The outcome of [open(WHITELIST_PATH)] followed by [json.load(f)]. *)
Inductive whitelist_file :=
| OpenRaises (e : exn)
| LoadRaises (e : exn)
| Loaded (data : json).

Definition type_name (v : json) : str :=
  match v with
  | JNull => "NoneType"
  | JBool _ => "bool"
  | JInt _ => "int"
  | JFloat _ => "float"
  | JStr _ => "str"
  | JArr _ => "list"
  | JObj _ => "dict"
  end.

(** The value of the last member named [key]: a repeated name keeps the
    last value when [json.load] builds the [dict]. *)
Fixpoint lookup_last (key : str) (members : list (str * json))
  : option json :=
  match members with
  | [] => None
  | (k, v) :: rest =>
      match lookup_last key rest with
      | Some v' => Some v'
      | None => if bool_decide (k = key) then Some v else None
      end
  end.

(** [data.get(key, default)] *)
Definition get (data : json) (key : str) (dflt : json) : result json :=
  match data with
  | JObj members => Ok (default dflt (lookup_last key members))
  | _ => Raise (Exception "AttributeError"
                  ("'" ++ type_name data ++ "' object has no attribute 'get'"))
  end.

Definition hashable (v : json) : result atom :=
  match v with
  | JNull => Ok ANone
  | JBool b => Ok (ABool b)
  | JInt n => Ok (AInt n)
  | JFloat l => Ok (AFloat l)
  | JStr s => Ok (AStr s)
  | JArr _ | JObj _ =>
      Raise (Exception "TypeError" ("unhashable type: '" ++ type_name v ++ "'"))
  end.

(** Hashing the items from left to right; the first that cannot be hashed
    raises. *)
Fixpoint hash_all (items : list json) : result (list atom) :=
  match items with
  | [] => Ok []
  | v :: rest =>
      match hashable v with
      | Raise e => Raise e
      | Ok a =>
          match hash_all rest with
          | Raise e => Raise e
          | Ok l => Ok (a :: l)
          end
      end
  end.

(** The characters of a string, each as a string of its own. *)
Definition chars (s : str) : list atom := map (fun c => AStr [c]) s.

(** [set(v)]: the items of a list, the characters of a string, the keys
    of a dict; anything else is not iterable. *)
Definition set_of (v : json) : result (gset atom) :=
  match v with
  | JArr items =>
      match hash_all items with
      | Ok l => Ok (list_to_set l)
      | Raise e => Raise e
      end
  | JStr s => Ok (list_to_set (chars s))
  | JObj members => Ok (list_to_set (map (fun kv => AStr (fst kv)) members))
  | _ => Raise (Exception "TypeError"
                  ("'" ++ type_name v ++ "' object is not iterable"))
  end.

(** The body of the [try] block. *)
Definition read_domains (f : whitelist_file) : result (gset atom) :=
  match f with
  | OpenRaises e => Raise e
  | LoadRaises e => Raise e
  | Loaded data =>
      match get data "allowedDomains" (JArr []) with
      | Raise e => Raise e
      | Ok v => set_of v
      end
  end.

Definition load_whitelist (f : whitelist_file) : M (gset atom) :=
  match read_domains f with
  | Ok s => mret s
  | Raise e =>
      ctx.log error ("Failed to load whitelist: " ++ exn_str e);;
      mret ∅
  end.

(** The parsed document is a [dict] with a member named [key]. *)
Definition has_key (key : str) (data : json) : bool :=
  match data with
  | JObj members => bool_decide (key ∈ map fst members)
  | _ => false
  end.

(** The rest of the filter is typed for a whitelist of domain strings, as
    the data model has it: viewing the loaded set as such. *)
Definition domain_of (a : atom) : option str :=
  match a with
  | AStr d => Some d
  | _ => None
  end.

Definition domains_of (s : gset atom) : option (gset str) :=
  list_to_set <$> mapM domain_of (elements s).

End Whitelist.

(** [ALLOWED_DOMAINS = load_whitelist()], run once when the script is
    loaded; the [ALLOWED_DOMAINS] field of the state it starts from is not
    read.  The filter is typed for a whitelist of strings: the result is
    [None] when the loaded set has a member that is not a string. *)
Definition startup (f : Whitelist.whitelist_file) (st : state) : option state :=
  match Whitelist.load_whitelist f st with
  | (Ok s, st') =>
      domains ← Whitelist.domains_of s;
      Some (State domains (log_dir_exists st') (log_file st') (ctx_log st'))
  | (Raise _, _) => None
  end.

(** ** Vocabulary of the properties *)

(** What [is_domain_allowed] computes from the set it reads. *)
Definition matches (domains : gset str) (host : str) : bool :=
  if bool_decide (host ∈ domains) then true
  else subdomain_loop host (elements domains).

(** A host is a dotted subdomain of [d]: it reads [p ++ "." ++ d]. *)
Definition subdomain_of (host d : str) : Prop :=
  exists p, host = p ++ "." ++ d.

(** The line [json.dumps(log_entry)] of a blocked request. *)
Definition audit_line (w : environ) (method host path : str) (body_size : Z)
  : str :=
  Json.dumps (log_entry (utcnow_isoformat w) method host path body_size).

Definition blocked_warning (method host path : str) (body_size : Z)
  : log_record :=
  (warn, "BLOCKED: " ++ method ++ " " ++ host ++ path
         ++ " (body: " ++ PyStr.str_int body_size ++ " bytes)").

Definition write_failure (e : exn) : log_record :=
  (error, "Failed to write log: " ++ exn_str e).

(** The first of the three file operations that raises, if any. *)
Definition first_fault (w : environ) : option exn :=
  match makedirs_raises w with
  | Some e => Some e
  | None =>
      match open_raises w with
      | Some e => Some e
      | None => snd <$> write_raises w
      end
  end.

(** A computation that leaves [ALLOWED_DOMAINS] as it found it, whether it
    returns or raises. *)
Definition keeps_whitelist {A} (m : M A) : Prop :=
  forall st, ALLOWED_DOMAINS (snd (m st)) = ALLOWED_DOMAINS st.

(** What "blocked" means for the hook: the call returns the flow with the
    403 answer attached. *)
Definition blocked (w : environ) (flow : http.HTTPFlow) (st : state) : Prop :=
  fst (request w flow st) =
  Ok (http.set_response flow
        (forbidden (http.method (http.request flow))
                   (http.host (http.request flow)))).

(** The whitelist file could not be turned into a document with an
    [allowedDomains] member. *)
Definition load_failed (f : Whitelist.whitelist_file) : Prop :=
  match f with
  | Whitelist.OpenRaises _ | Whitelist.LoadRaises _ => True
  | Whitelist.Loaded data => Whitelist.has_key "allowedDomains" data = false
  end.

(** Sample data used by the concrete instances below. *)
Module Sample.

Definition st : state := State {[ "example.com" ]} false None [].

Definition st_empty : state := State ∅ true (Some "") [].

Definition calm : environ := Environ "2024-05-01T10:00:00" None None None.

(** The log directory cannot be created. *)
Definition read_only : environ :=
  Environ "2024-05-01T10:00:00"
    (Some (Exception "PermissionError"
             "[Errno 13] Permission denied: '/var/log/proxy'"))
    None None.

(** The file opens, the write does not go through. *)
Definition disk_full : environ :=
  Environ "2024-05-01T10:00:00" None None
    (Some (0%nat, Exception "OSError" "[Errno 28] No space left on device")).

(** The file may not grow beyond a size: the write stops after 43
    characters. *)
Definition size_limit : environ :=
  Environ "2024-05-01T10:00:00" None None
    (Some (43%nat, Exception "OSError" "[Errno 27] File too large")).

Definition flow (method host : str) : http.HTTPFlow :=
  {| http.request :=
       {| http.method := method; http.host := host; http.path := "/upload";
          http.content := Ok (Some [Byte.x68; Byte.x69]) |};
     http.response := None |}.

(** A request whose body cannot be decoded: reading [content] raises. *)
Definition undecodable : exn :=
  Exception "ValueError" "Invalid Content-Encoding: bogus".

Definition unreadable (method host : str) : http.HTTPFlow :=
  {| http.request :=
       {| http.method := method; http.host := host; http.path := "/upload";
          http.content := Raise undecodable |};
     http.response := None |}.

End Sample.

(** ** Successive calls of the hook *)

(** [request] called on one intercepted request after the other, as the
    proxy does; each call meets its own answers of the operating system.
    The flows are returned in the order of the requests.  A call that
    raises ends the run here: what the proxy does with a hook that raised
    is outside the script. *)
Fixpoint serve (reqs : list (environ * http.HTTPFlow)) : M (list http.HTTPFlow) :=
  match reqs with
  | [] => mret []
  | (w, flow) :: rest =>
      flow' ← request w flow;
      flows ← serve rest;
      mret ((flow' : http.HTTPFlow) :: (flows : list http.HTTPFlow))
  end.

(** The requests that [request] refuses under a given whitelist: a
    mutating method and a host that does not match. *)
Definition refused (domains : gset str) (flow : http.HTTPFlow) : bool :=
  bool_decide (http.method (http.request flow) ∈ MUTATION_METHODS)
  && negb (matches domains (http.host (http.request flow))).

(** The body of the request can be read. *)
Definition readable (flow : http.HTTPFlow) : Prop :=
  exists c, http.content (http.request flow) = Ok c.

(** The response a flow ends with under a given whitelist, when its body
    can be read: the 403 when the request is refused, the one it came with
    otherwise. *)
Definition verdict (domains : gset str) (flow : http.HTTPFlow)
  : option http.Response :=
  if refused domains flow then
    Some (forbidden (http.method (http.request flow)) (http.host (http.request flow)))
  else http.response flow.

(** The body size logged for a request whose body can be read. *)
Definition logged_size (flow : http.HTTPFlow) : Z :=
  match http.content (http.request flow) with
  | Ok c => body_size_of c
  | Raise _ => 0
  end.

(** The text a run adds to the audit file when no write fails: the lines of
    the refused requests, in order, each closed by a line break. *)
Fixpoint audit_text (domains : gset str)
    (reqs : list (environ * http.HTTPFlow)) : str :=
  match reqs with
  | [] => []
  | (w, flow) :: rest =>
      (if refused domains flow then
         audit_line w (http.method (http.request flow))
           (http.host (http.request flow)) (http.path (http.request flow))
           (logged_size flow)
         ++ [Json.newline]
       else [])
      ++ audit_text domains rest
  end.

(** ** Shapes of the [allowedDomains] value *)

(** Values [set(...)] cannot iterate over. *)
Definition not_iterable (v : Whitelist.json) : bool :=
  match v with
  | Whitelist.JArr _ | Whitelist.JStr _ | Whitelist.JObj _ => false
  | _ => true
  end.

(** Values that cannot be members of a [set]. *)
Definition unhashable (v : Whitelist.json) : bool :=
  match v with
  | Whitelist.JArr _ | Whitelist.JObj _ => true
  | _ => false
  end.

(** * Part II: properties *)

(** ** Suffixes *)

Module PyStrFacts.
Import PyStr.

(** [endswith] is the suffix relation on strings. *)
Lemma endswith_spec (s suffix : str) :
  endswith s suffix = true <-> exists p, s = p ++ suffix.
Proof.
  unfold endswith. rewrite andb_true_iff, Nat.leb_le, bool_decide_eq_true. split.
  - intros [_ Hdrop]. exists (take (length s - length suffix) s).
    rewrite <- (take_drop (length s - length suffix) s) at 1. now rewrite Hdrop.
  - intros [p ->]. rewrite length_app. split; [lia|].
    replace (length p + length suffix - length suffix)%nat with (length p) by lia.
    apply drop_app_length.
Qed.

Lemma endswith_false (s suffix : str) :
  endswith s suffix = false <-> ~ exists p, s = p ++ suffix.
Proof.
  rewrite <- endswith_spec. destruct (endswith s suffix); split; congruence.
Qed.

End PyStrFacts.

(** ** The method sets *)

Lemma safe_methods_spec (m : str) :
  m ∈ SAFE_METHODS <-> m = "GET" \/ m = "HEAD" \/ m = "OPTIONS".
Proof.
  unfold SAFE_METHODS. rewrite !elem_of_union, !elem_of_singleton. tauto.
Qed.

Lemma mutation_methods_spec (m : str) :
  m ∈ MUTATION_METHODS <-> m = "POST" \/ m = "PUT" \/ m = "DELETE" \/ m = "PATCH".
Proof.
  unfold MUTATION_METHODS. rewrite !elem_of_union, !elem_of_singleton. tauto.
Qed.

Lemma mutation_not_safe (m : str) : m ∈ MUTATION_METHODS -> m ∉ SAFE_METHODS.
Proof.
  rewrite mutation_methods_spec, safe_methods_spec.
  intros [-> | [-> | [-> | ->]]] [H | [H | H]]; discriminate H.
Qed.

(** ** The whitelist match *)

Lemma is_domain_allowed_run (host : str) (st : state) :
  is_domain_allowed host st = (Ok (matches (ALLOWED_DOMAINS st) host), st).
Proof.
  unfold is_domain_allowed, matches, mbind, M_bind, gets, mret, M_ret.
  now destruct (bool_decide (host ∈ ALLOWED_DOMAINS st)).
Qed.

Lemma subdomain_loop_spec (host : str) (l : list str) :
  subdomain_loop host l = true <->
  exists d, d ∈ l /\ PyStr.endswith host ("." ++ d) = true.
Proof.
  induction l as [|a l IH]; cbn [subdomain_loop].
  - split; [discriminate | intros (d & Hd & _); inversion Hd].
  - destruct (PyStr.endswith host ("." ++ a)) eqn:Ha.
    + split; [|reflexivity]. intros _. exists a. split; [left | exact Ha].
    + rewrite IH. split.
      * intros (d & Hd & He). exists d. split; [now right | exact He].
      * intros (d & Hd & He). inversion Hd; subst; [congruence|]. now exists d.
  Qed.

Lemma matches_spec (domains : gset str) (host : str) :
  matches domains host = true <->
  host ∈ domains \/ exists d, d ∈ domains /\ subdomain_of host d.
Proof.
  unfold matches, subdomain_of. case_bool_decide as Hin.
  - split; [now left | reflexivity].
  - rewrite subdomain_loop_spec. split.
    + intros (d & Hd & He). right. exists d. split.
      * now apply elem_of_elements.
      * now apply PyStrFacts.endswith_spec.
    + intros [Hex | (d & Hd & He)]; [contradiction|]. exists d. split.
      * now apply elem_of_elements.
      * now apply PyStrFacts.endswith_spec.
Qed.

(** ** The encoder writes printable ASCII only *)

Module JsonFacts.
Import Json.

Lemma all_chars_app (P : N -> bool) (a b : str) :
  all_chars P (a ++ b) = all_chars P a && all_chars P b.
Proof. apply forallb_app. Qed.

Lemma all_chars_impl (P Q : N -> bool) (s : str) :
  (forall c, P c = true -> Q c = true) ->
  all_chars P s = true -> all_chars Q s = true.
Proof.
  intros HPQ. unfold all_chars. rewrite !forallb_forall. auto.
Qed.

Lemma hexdigit_printable (n : N) : printable (hexdigit n) = true.
Proof.
  unfold printable, hexdigit. cbv zeta.
  assert (Hd : (n mod 16 < 16)%N) by (apply N.mod_upper_bound; discriminate).
  set (d := (n mod 16)%N) in *.
  destruct (N.ltb_spec d 10);
    apply andb_true_iff; split; apply N.leb_le; lia.
Qed.

Lemma u_escape_printable (n : N) : all_chars printable (u_escape n) = true.
Proof.
  unfold u_escape, all_chars. cbn [forallb].
  now rewrite !hexdigit_printable.
Qed.

(** Whatever the code point, its replacement is printable ASCII: the
    character itself inside [' '..'~'], an escape sequence outside. *)
Lemma escape_printable (c : N) : all_chars printable (escape c) = true.
Proof.
  unfold escape.
  repeat match goal with
         | |- context [if ?b then _ else _] => destruct b eqn:?; [try reflexivity|]
         end.
  - unfold all_chars, printable. cbn [forallb].
    match goal with H : _ = true |- _ => now rewrite H end.
  - apply u_escape_printable.
  - now rewrite all_chars_app, !u_escape_printable.
Qed.

Lemma escape_all_printable (s : str) :
  all_chars printable (escape_all s) = true.
Proof.
  induction s as [|c s IH]; [reflexivity|].
  cbn [escape_all]. now rewrite all_chars_app, escape_printable, IH.
Qed.

Lemma encode_str_printable (s : str) :
  all_chars printable (encode_str s) = true.
Proof.
  unfold encode_str. change (dquote :: ?l) with ([dquote] ++ l).
  now rewrite !all_chars_app, escape_all_printable.
Qed.

Lemma digits_printable (d : Decimal.uint) :
  all_chars printable (PyStr.digits d) = true.
Proof. induction d; simpl; auto. Qed.

Lemma str_int_printable (n : Z) : all_chars printable (PyStr.str_int n) = true.
Proof.
  unfold PyStr.str_int.
  destruct (Z.to_int n) as [d | d]; destruct d; try reflexivity;
    apply (digits_printable (_ d)) || (cbn [all_chars forallb];
      apply (digits_printable (_ d))).
Qed.

Lemma encode_printable (v : value) : all_chars printable (encode v) = true.
Proof. destruct v; simpl; [apply encode_str_printable | apply str_int_printable]. Qed.

Lemma encode_item_printable (kv : str * value) :
  all_chars printable (encode_item kv) = true.
Proof.
  unfold encode_item.
  now rewrite !all_chars_app, encode_str_printable, encode_printable.
Qed.

Lemma join_printable (sep : str) (parts : list str) :
  all_chars printable sep = true ->
  Forall (fun p => all_chars printable p = true) parts ->
  all_chars printable (PyStr.join sep parts) = true.
Proof.
  intros Hsep. induction 1 as [|p parts Hp Hparts IH]; [reflexivity|].
  destruct parts as [|q parts]; [exact Hp|].
  change (PyStr.join sep (p :: q :: parts))
    with (p ++ sep ++ PyStr.join sep (q :: parts)).
  now rewrite !all_chars_app, Hp, Hsep, IH.
Qed.

Lemma dumps_printable (d : dict) : all_chars printable (dumps d) = true.
Proof.
  unfold dumps.
  rewrite !all_chars_app, join_printable; [reflexivity | reflexivity |].
  apply Forall_forall. intros x Hx. apply list_elem_of_In, in_map_iff in Hx as (kv & <- & _).
  apply encode_item_printable.
Qed.

(** The serialised dictionary never holds a line break. *)
Lemma dumps_single_line (d : dict) : single_line (dumps d) = true.
Proof.
  apply all_chars_impl with (P := printable); [|apply dumps_printable].
  intros c. unfold printable. rewrite andb_true_iff, !N.leb_le. intros [H1 H2].
  apply negb_true_iff, N.eqb_neq. unfold newline. lia.
Qed.

End JsonFacts.

(** ** Running the audit write and the hook *)

Ltac run_audit :=
  unfold log_blocked_request, try_except, mbind, M_bind, os.makedirs,
    os.open_append, os.write, ctx.log, modify, raise, first_fault,
    audit_line, blocked_warning, write_failure, add_ctx_log, append_to_log,
    set_log_file, set_log_dir_exists.

Lemma log_blocked_request_ok w m h p n st :
  first_fault w = None ->
  log_blocked_request w m h p n st =
  (Ok tt,
   State (ALLOWED_DOMAINS st) true
     (Some (default "" (log_file st) ++ audit_line w m h p n ++ [Json.newline]))
     (ctx_log st ++ [blocked_warning m h p n])).
Proof.
  unfold log_blocked_request, blocked_warning.
  change (Json.dumps (log_entry (utcnow_isoformat w) m h p n))
    with (audit_line w m h p n).
  generalize (audit_line w m h p n ++ [Json.newline]).
  generalize ("BLOCKED: " ++ m ++ " " ++ h ++ p ++ " (body: "
              ++ PyStr.str_int n ++ " bytes)").
  intros msg data. run_audit.
  destruct w as [t [e1|] [e2|] [[k e3]|]]; simpl; intros H;
    try discriminate H. now rewrite app_nil_r.
Qed.

Lemma take_is_prefix (k : nat) (l : str) : take k l `prefix_of` l.
Proof. exists (drop k l). symmetry. apply take_drop. Qed.

(** The state [log_blocked_request] leaves, case by case on what raised:
    what is added to the file is the line with its line break when nothing
    raised, and their first characters, possibly none, otherwise. *)
Lemma log_blocked_request_cases w m h p n st :
  exists st' added events,
    log_blocked_request w m h p n st = (Ok tt, st') /\
    ALLOWED_DOMAINS st' = ALLOWED_DOMAINS st /\
    default "" (log_file st') = default "" (log_file st) ++ added /\
    added `prefix_of` audit_line w m h p n ++ [Json.newline] /\
    ctx_log st' = ctx_log st ++ events ++ [blocked_warning m h p n] /\
    (first_fault w = None ->
     added = audit_line w m h p n ++ [Json.newline] /\ events = [] /\
     log_dir_exists st' = true /\ log_file st' <> None) /\
    (forall e, first_fault w = Some e -> events = [write_failure e]) /\
    (log_file st <> None -> log_file st' <> None) /\
    (log_dir_exists st = true -> log_dir_exists st' = true).
Proof.
  unfold log_blocked_request, blocked_warning.
  change (Json.dumps (log_entry (utcnow_isoformat w) m h p n))
    with (audit_line w m h p n).
  generalize (audit_line w m h p n ++ [Json.newline]).
  generalize ("BLOCKED: " ++ m ++ " " ++ h ++ p ++ " (body: "
              ++ PyStr.str_int n ++ " bytes)").
  intros msg data. run_audit.
  destruct w as [t [e1|] [e2|] [[k e3]|]]; simpl.
  1-4: (eexists; exists [], [write_failure e1]; split; [reflexivity|]; simpl).
  5-6: (eexists; exists [], [write_failure e2]; split; [reflexivity|]; simpl).
  7: (eexists; exists (take k data), [write_failure e3]; split; [reflexivity|]; simpl).
  8: (eexists; exists data, []; split; [reflexivity|]; simpl).
  all: rewrite ?app_nil_r, <- ?app_assoc.
  all: (split; [reflexivity|]); (split; [reflexivity|]).
  all: (split; [first [apply prefix_nil | apply take_is_prefix | reflexivity]|]).
  all: (split; [reflexivity|]).
  all: (split; [first [discriminate | intros _; repeat split; discriminate]|]).
  all: (split; [first [discriminate | intros e [= ->]; reflexivity]|]).
  all: (split; [first [discriminate | auto]|]).
  all: auto.
Qed.

Lemma log_blocked_request_returns w m h p n st :
  exists st', log_blocked_request w m h p n st = (Ok tt, st').
Proof.
  destruct (log_blocked_request_cases w m h p n st) as (st' & _ & _ & H & _).
  now exists st'.
Qed.

(** The ways through [request]. *)
Section Hook.

Variables (w : environ) (flow : http.HTTPFlow) (st : state).

Let method := http.method (http.request flow).
Let host := http.host (http.request flow).
Let path := http.path (http.request flow).

Lemma request_safe :
  method ∈ SAFE_METHODS ->
  request w flow st =
  (Ok flow, add_ctx_log (info, "ALLOWED: " ++ method ++ " " ++ host ++ path) st).
Proof.
  intros Hm. unfold request. fold method host path.
  now rewrite (bool_decide_eq_true_2 _ Hm).
Qed.

Lemma request_whitelisted :
  method ∈ MUTATION_METHODS ->
  matches (ALLOWED_DOMAINS st) host = true ->
  request w flow st =
  (Ok flow,
   add_ctx_log
     (info, "ALLOWED (whitelisted): " ++ method ++ " " ++ host ++ path) st).
Proof.
  intros Hm Ha. unfold request. fold method host path.
  rewrite (bool_decide_eq_false_2 _ (mutation_not_safe _ Hm)).
  rewrite (bool_decide_eq_true_2 _ Hm).
  unfold mbind, M_bind at 1. rewrite is_domain_allowed_run, Ha. reflexivity.
Qed.

(** Refused, and the body can be read. *)
Lemma request_blocked (c : option (list Byte.byte)) :
  method ∈ MUTATION_METHODS ->
  matches (ALLOWED_DOMAINS st) host = false ->
  http.content (http.request flow) = Ok c ->
  request w flow st =
  (Ok (http.set_response flow (forbidden method host)),
   snd (log_blocked_request w method host path (body_size_of c) st)).
Proof.
  intros Hm Ha Hc. unfold request. fold method host path.
  rewrite (bool_decide_eq_false_2 _ (mutation_not_safe _ Hm)).
  rewrite (bool_decide_eq_true_2 _ Hm).
  unfold mbind, M_bind at 1. rewrite is_domain_allowed_run, Ha.
  unfold M_bind at 1. unfold read. rewrite Hc.
  unfold M_bind.
  destruct (log_blocked_request_returns w method host path (body_size_of c) st)
    as (st' & ->).
  reflexivity.
Qed.

(** Refused, and reading the body raises: the exception leaves the hook,
    and nothing has been logged, written or attached. *)
Lemma request_unreadable (e : exn) :
  method ∈ MUTATION_METHODS ->
  matches (ALLOWED_DOMAINS st) host = false ->
  http.content (http.request flow) = Raise e ->
  request w flow st = (Raise e, st).
Proof.
  intros Hm Ha Hc. unfold request. fold method host path.
  rewrite (bool_decide_eq_false_2 _ (mutation_not_safe _ Hm)).
  rewrite (bool_decide_eq_true_2 _ Hm).
  unfold mbind, M_bind at 1. rewrite is_domain_allowed_run, Ha.
  unfold M_bind at 1. unfold read. now rewrite Hc.
Qed.

Lemma request_unknown :
  method ∉ SAFE_METHODS ->
  method ∉ MUTATION_METHODS ->
  request w flow st =
  (Ok flow,
   add_ctx_log (warn, "UNKNOWN METHOD: " ++ method ++ " " ++ host ++ path) st).
Proof.
  intros Hs Hm. unfold request. fold method host path.
  now rewrite (bool_decide_eq_false_2 _ Hs), (bool_decide_eq_false_2 _ Hm).
Qed.

End Hook.

(** ** The whitelist is never written *)

Create HintDb whitelist.

Lemma keeps_mret {A} (a : A) : keeps_whitelist (mret a).
Proof. now intros st. Qed.

Lemma keeps_raise {A} (e : exn) : keeps_whitelist (@raise A e).
Proof. now intros st. Qed.

Lemma keeps_gets {A} (f : state -> A) : keeps_whitelist (gets f).
Proof. now intros st. Qed.

Lemma keeps_read {A} (r : result A) : keeps_whitelist (read r).
Proof. now intros st. Qed.

Lemma keeps_bind {A B} (m : M A) (k : A -> M B) :
  keeps_whitelist m -> (forall a, keeps_whitelist (k a)) ->
  keeps_whitelist (m ≫= k).
Proof.
  intros Hm Hk st. unfold mbind, M_bind. specialize (Hm st).
  destruct (m st) as [[a | e] st1]; simpl in *; [|exact Hm].
  now rewrite Hk.
Qed.

Lemma keeps_try_except {A} (body : M A) (handler : exn -> M A) :
  keeps_whitelist body -> (forall e, keeps_whitelist (handler e)) ->
  keeps_whitelist (try_except body handler).
Proof.
  intros Hb Hh st. unfold try_except. specialize (Hb st).
  destruct (body st) as [[a | e] st1]; simpl in *; [exact Hb|].
  now rewrite Hh.
Qed.

Lemma keeps_log (l : level) (msg : str) : keeps_whitelist (ctx.log l msg).
Proof. now intros st. Qed.

Lemma keeps_makedirs (w : environ) : keeps_whitelist (os.makedirs w).
Proof. intros st. unfold os.makedirs. now destruct (makedirs_raises w). Qed.

Lemma keeps_open_append (w : environ) : keeps_whitelist (os.open_append w).
Proof. intros st. unfold os.open_append. now destruct (open_raises w). Qed.

Lemma keeps_write (w : environ) (data : str) : keeps_whitelist (os.write w data).
Proof.
  intros st. unfold os.write. now destruct (write_raises w) as [[k e]|].
Qed.

#[global] Hint Resolve keeps_mret keeps_raise keeps_gets keeps_read keeps_log
  keeps_makedirs keeps_open_append keeps_write : whitelist.
#[global] Hint Extern 2 (keeps_whitelist (_ ≫= _)) =>
  apply keeps_bind; [|intros ?] : whitelist.
#[global] Hint Extern 2 (keeps_whitelist (try_except _ _)) =>
  apply keeps_try_except; [|intros ?] : whitelist.
#[global] Hint Extern 3 (keeps_whitelist (if ?b then _ else _)) =>
  destruct b : whitelist.

Lemma keeps_is_domain_allowed (host : str) :
  keeps_whitelist (is_domain_allowed host).
Proof. unfold is_domain_allowed. auto with whitelist. Qed.

Lemma keeps_log_blocked_request w m h p n :
  keeps_whitelist (log_blocked_request w m h p n).
Proof. unfold log_blocked_request. auto 8 with whitelist. Qed.

#[global] Hint Resolve keeps_is_domain_allowed keeps_log_blocked_request
  : whitelist.

Lemma keeps_request (w : environ) (flow : http.HTTPFlow) :
  keeps_whitelist (request w flow).
Proof. unfold request. auto 10 with whitelist. Qed.

(** A whitelist without entries matches no host. *)
Lemma matches_empty (host : str) : matches ∅ host = false.
Proof.
  unfold matches. rewrite bool_decide_eq_false_2 by apply not_elem_of_empty.
  now rewrite elements_empty.
Qed.

(** * The claims *)

Lemma example_listed : "example.com" ∈ ALLOWED_DOMAINS Sample.st.
Proof. unfold Sample.st. simpl. apply elem_of_singleton_2. reflexivity. Defined.

(** C2. For every host, [is_domain_allowed] returns (without touching the
    state) [true] exactly when the host equals a domain of the whitelist or
    reads [p ++ "." ++ d] for a domain [d] of the whitelist, that is, ends
    with ["." + d]; in every other case it returns [false]. *)
Theorem is_domain_allowed_iff (host : str) (st : state) :
  exists b : bool,
    is_domain_allowed host st = (Ok b, st) /\
    (b = true <->
       (exists d, d ∈ ALLOWED_DOMAINS st /\ host = d) \/
       (exists d, d ∈ ALLOWED_DOMAINS st /\
                  PyStr.endswith host ("." ++ d) = true)) /\
    (b = false <->
       ~ ((exists d, d ∈ ALLOWED_DOMAINS st /\ host = d) \/
          (exists d, d ∈ ALLOWED_DOMAINS st /\ exists p, host = p ++ "." ++ d))).
Proof.
  exists (matches (ALLOWED_DOMAINS st) host).
  split; [apply is_domain_allowed_run|].
  assert (Hiff : matches (ALLOWED_DOMAINS st) host = true <->
                 (exists d, d ∈ ALLOWED_DOMAINS st /\ host = d) \/
                 (exists d, d ∈ ALLOWED_DOMAINS st /\ exists p, host = p ++ "." ++ d)).
  { rewrite matches_spec. split.
    - intros [Hin | Hsub]; [left; now exists host | now right].
    - intros [(d & Hd & ->) | Hsub]; [now left | now right]. }
  split.
  - rewrite Hiff. split.
    + intros [He | (d & Hd & Hp)]; [now left | right].
      exists d. split; [exact Hd | now apply PyStrFacts.endswith_spec].
    + intros [He | (d & Hd & Hp)]; [now left | right].
      exists d. split; [exact Hd | now apply PyStrFacts.endswith_spec].
  - rewrite <- Hiff. destruct (matches (ALLOWED_DOMAINS st) host); split; congruence.
Qed.

(** C8. [is_domain_allowed] depends on the host and on the whitelist only,
    and has no effect: run in two states that hold the same whitelist (and
    may differ in the audit file and the event log), it returns the same
    boolean and leaves each state exactly as it was. *)
Theorem is_domain_allowed_pure (host : str) (st1 st2 : state) :
  ALLOWED_DOMAINS st1 = ALLOWED_DOMAINS st2 ->
  exists b : bool,
    is_domain_allowed host st1 = (Ok b, st1) /\
    is_domain_allowed host st2 = (Ok b, st2).
Proof.
  intros Heq. exists (matches (ALLOWED_DOMAINS st1) host). split.
  - apply is_domain_allowed_run.
  - rewrite Heq. apply is_domain_allowed_run.
Qed.

Lemma is_domain_allowed_pure_witness :
  exists b : bool,
    is_domain_allowed "api.example.com" Sample.st = (Ok b, Sample.st) /\
    is_domain_allowed "api.example.com"
      (State {[ "example.com" ]} true (Some "earlier line") [(info, "x")])
    = (Ok b, State {[ "example.com" ]} true (Some "earlier line") [(info, "x")]).
Proof.
  apply (is_domain_allowed_pure "api.example.com" Sample.st
           (State {[ "example.com" ]} true (Some "earlier line") [(info, "x")])).
  reflexivity.
Defined.

(** C7. The whitelist is read-only after load: the request hook,
    [is_domain_allowed] and [log_blocked_request] each leave
    [ALLOWED_DOMAINS] exactly as it was before the call. *)
Theorem whitelist_read_only
    (w : environ) (flow : http.HTTPFlow) (host method path : str)
    (body_size : Z) (st : state) :
  ALLOWED_DOMAINS (snd (request w flow st)) = ALLOWED_DOMAINS st /\
  ALLOWED_DOMAINS (snd (is_domain_allowed host st)) = ALLOWED_DOMAINS st /\
  ALLOWED_DOMAINS (snd (log_blocked_request w method host path body_size st))
  = ALLOWED_DOMAINS st.
Proof.
  split; [apply keeps_request|].
  split; [apply keeps_is_domain_allowed | apply keeps_log_blocked_request].
Qed.

(** C3. A request whose method is GET, HEAD or OPTIONS is let through
    whatever the host, the whitelist, the path and the body are: the hook
    returns the flow as it received it (no response attached), the audit
    file and its directory are untouched, and the only event is the
    [ALLOWED] information line. *)
Theorem safe_methods_pass (w : environ) (flow : http.HTTPFlow) (st : state) :
  let method := http.method (http.request flow) in
  let host := http.host (http.request flow) in
  let path := http.path (http.request flow) in
  method = "GET" \/ method = "HEAD" \/ method = "OPTIONS" ->
  exists st',
    request w flow st = (Ok flow, st') /\
    log_file st' = log_file st /\
    log_dir_exists st' = log_dir_exists st /\
    ctx_log st' =
      (ctx_log st
         ++ [(info, ("ALLOWED: " ++ method ++ " " ++ host ++ path))])%list.
Proof.
  intros method host path Hm. apply safe_methods_spec in Hm.
  eexists. split; [now apply request_safe|]. repeat split.
Qed.

Lemma safe_methods_pass_witness :
  exists st',
    request Sample.read_only (Sample.flow "GET" "evil.test") Sample.st_empty
    = (Ok (Sample.flow "GET" "evil.test"), st') /\
    log_file st' = Some "" /\
    log_dir_exists st' = true /\
    ctx_log st' = [(info, "ALLOWED: GET evil.test/upload")].
Proof.
  apply (safe_methods_pass Sample.read_only (Sample.flow "GET" "evil.test")
           Sample.st_empty).
  left. reflexivity.
Defined.

(** C10. Methods are compared as exact strings: a request whose method is
    none of GET, HEAD, OPTIONS, POST, PUT, DELETE, PATCH (a lowercase
    ["post"] for one) is passed through whatever the host is: the flow comes
    back as received, the audit file is untouched, and the only event is the
    [UNKNOWN METHOD] warning. *)
Theorem unknown_methods_pass (w : environ) (flow : http.HTTPFlow) (st : state) :
  let method := http.method (http.request flow) in
  let host := http.host (http.request flow) in
  let path := http.path (http.request flow) in
  method <> "GET" -> method <> "HEAD" -> method <> "OPTIONS" ->
  method <> "POST" -> method <> "PUT" -> method <> "DELETE" ->
  method <> "PATCH" ->
  exists st',
    request w flow st = (Ok flow, st') /\
    log_file st' = log_file st /\
    log_dir_exists st' = log_dir_exists st /\
    ctx_log st' =
      (ctx_log st
         ++ [(warn, ("UNKNOWN METHOD: " ++ method ++ " " ++ host ++ path))])%list.
Proof.
  intros method host path H1 H2 H3 H4 H5 H6 H7.
  assert (Hs : method ∉ SAFE_METHODS) by (rewrite safe_methods_spec; tauto).
  assert (Hm : method ∉ MUTATION_METHODS) by (rewrite mutation_methods_spec; tauto).
  eexists. split; [now apply request_unknown|]. repeat split.
Qed.

Lemma unknown_methods_pass_witness :
  exists st',
    request Sample.calm (Sample.flow "post" "evil.test") Sample.st
    = (Ok (Sample.flow "post" "evil.test"), st') /\
    log_file st' = None /\
    log_dir_exists st' = false /\
    ctx_log st' = [(warn, "UNKNOWN METHOD: post evil.test/upload")].
Proof.
  apply (unknown_methods_pass Sample.calm (Sample.flow "post" "evil.test")
           Sample.st); discriminate.
Defined.

Lemma not_allowed_matches (host : str) (st : state) :
  is_domain_allowed host st = (Ok false, st) ->
  matches (ALLOWED_DOMAINS st) host = false.
Proof. rewrite is_domain_allowed_run. now intros [= ->]. Qed.

(** C5, as stated, fails: ["example.com"] is whitelisted and is a suffix of
    ["evilexample.com"], yet a POST to that host gets the 403 and is not
    returned as received.  The loop tests [host.endswith("." + allowed)]:
    the suffix has to start at a dot. *)
Lemma bare_suffix_blocked :
  "example.com" ∈ ALLOWED_DOMAINS Sample.st /\
  "evilexample.com" = "evil" ++ "example.com" /\
  http.method (http.request (Sample.flow "POST" "evilexample.com")) = "POST" /\
  blocked Sample.calm (Sample.flow "POST" "evilexample.com") Sample.st /\
  fst (request Sample.calm (Sample.flow "POST" "evilexample.com") Sample.st)
  <> Ok (Sample.flow "POST" "evilexample.com").
Proof.
  split; [apply example_listed|]. split; [reflexivity|].
  split; [reflexivity|]. split; [vm_compute; reflexivity|].
  vm_compute. discriminate.
Qed.

(** C5, amended. A mutating request is let through whenever the host is a
    whitelisted domain [d] itself or ends with ["." + d]: the flow comes
    back as received, the audit file is untouched and the only event is the
    [ALLOWED (whitelisted)] information line. *)
Theorem dotted_suffix_allowed
    (w : environ) (flow : http.HTTPFlow) (st : state) (d : str) :
  let method := http.method (http.request flow) in
  let host := http.host (http.request flow) in
  let path := http.path (http.request flow) in
  method = "POST" \/ method = "PUT" \/ method = "DELETE" \/ method = "PATCH" ->
  d ∈ ALLOWED_DOMAINS st ->
  host = d \/ PyStr.endswith host ("." ++ d) = true ->
  exists st',
    request w flow st = (Ok flow, st') /\
    log_file st' = log_file st /\
    log_dir_exists st' = log_dir_exists st /\
    ctx_log st' =
      (ctx_log st
         ++ [(info, ("ALLOWED (whitelisted): " ++ method ++ " " ++ host
                     ++ path))])%list.
Proof.
  intros method host path Hm Hd Hhost. apply mutation_methods_spec in Hm.
  assert (Ha : matches (ALLOWED_DOMAINS st) host = true).
  { apply matches_spec. destruct Hhost as [-> | He]; [now left | right].
    exists d. split; [exact Hd | now apply PyStrFacts.endswith_spec]. }
  eexists. split; [now apply request_whitelisted|]. repeat split.
Qed.

Lemma dotted_suffix_allowed_witness :
  exists st',
    request Sample.calm (Sample.flow "POST" "api.example.com") Sample.st
    = (Ok (Sample.flow "POST" "api.example.com"), st') /\
    log_file st' = None /\
    log_dir_exists st' = false /\
    ctx_log st' = [(info, "ALLOWED (whitelisted): POST api.example.com/upload")].
Proof.
  apply (dotted_suffix_allowed Sample.calm (Sample.flow "POST" "api.example.com")
           Sample.st "example.com").
  - left. reflexivity.
  - apply example_listed.
  - right. vm_compute. reflexivity.
Defined.

(** C1, as stated, fails where the audit write raises: with a log directory
    that cannot be created, a POST to a host that is not allowed gets the
    403, but no audit entry is written (there is still no audit file), so
    "403 and audit entry" does not follow from [is_domain_allowed] being
    false. *)
Lemma block_without_audit_entry :
  let flow := Sample.flow "POST" "evil.test" in
  is_domain_allowed "evil.test" Sample.st = (Ok false, Sample.st) /\
  blocked Sample.read_only flow Sample.st /\
  log_file (snd (request Sample.read_only flow Sample.st)) = None /\
  ~ (exists st',
       request Sample.read_only flow Sample.st
       = (Ok (http.set_response flow (forbidden "POST" "evil.test")), st') /\
       log_file st' =
         Some (default "" (log_file Sample.st)
               ++ audit_line Sample.read_only "POST" "evil.test" "/upload" 2
               ++ [Json.newline])).
Proof.
  intros flow. split; [vm_compute; reflexivity|]. split; [vm_compute; reflexivity|].
  split; [vm_compute; reflexivity|].
  intros (st' & Hreq & Hfile).
  assert (Hnone : log_file (snd (request Sample.read_only flow Sample.st)) = None)
    by (vm_compute; reflexivity).
  rewrite Hreq in Hnone. simpl in Hnone. congruence.
Qed.

(** C1, amended. For a request whose method is POST, PUT, DELETE or PATCH
    and whose body can be read, the hook attaches the 403 answer (status
    403, a JSON body with the fields [error], [message] and [hint], content
    type [application/json]) if and only if [is_domain_allowed(host)] is
    false.  In that case it runs [log_blocked_request], which appends the
    audit entry to the log file unless the write raises.  If the host is
    allowed, the flow comes back as received (no response attached) and
    nothing is written to the audit file.  (What happens when reading the
    body raises is left out here.) *)
Theorem mutation_blocked_iff_not_allowed
    (w : environ) (flow : http.HTTPFlow) (st : state)
    (content : option (list Byte.byte)) :
  let method := http.method (http.request flow) in
  let host := http.host (http.request flow) in
  let path := http.path (http.request flow) in
  let body_size := body_size_of content in
  method = "POST" \/ method = "PUT" \/ method = "DELETE" \/ method = "PATCH" ->
  http.content (http.request flow) = Ok content ->
  exists (b : bool) (flow' : http.HTTPFlow) (st' : state),
    is_domain_allowed host st = (Ok b, st) /\
    request w flow st = (Ok flow', st') /\
    (http.response flow = None ->
     (http.response flow' = Some (forbidden method host) <-> b = false)) /\
    (b = false ->
       flow' = http.set_response flow (forbidden method host) /\
       http.request flow' = http.request flow /\
       http.response flow' = Some (forbidden method host) /\
       http.status_code (forbidden method host) = 403%Z /\
       http.headers (forbidden method host) = [("Content-Type", "application/json")] /\
       http.body (forbidden method host)
       = Json.dumps
           [ ("error", Json.Str "Request blocked by network filter");
             ("message",
              Json.Str (method ++ " requests to " ++ host ++ " are not allowed"));
             ("hint", Json.Str "Add this domain to whitelist.json if needed") ] /\
       log_blocked_request w method host path body_size st = (Ok tt, st') /\
       (first_fault w = None ->
        log_file st' =
          Some (default "" (log_file st)
                ++ audit_line w method host path body_size
                ++ [Json.newline]))) /\
    (b = true ->
       flow' = flow /\
       log_file st' = log_file st /\
       log_dir_exists st' = log_dir_exists st /\
       ctx_log st' =
         (ctx_log st
            ++ [(info, ("ALLOWED (whitelisted): " ++ method ++ " " ++ host
                        ++ path))])%list).
Proof.
  intros method host path body_size Hm Hc. apply mutation_methods_spec in Hm.
  exists (matches (ALLOWED_DOMAINS st) host).
  destruct (matches (ALLOWED_DOMAINS st) host) eqn:Ha.
  - exists flow. eexists. split; [now rewrite is_domain_allowed_run, Ha|].
    split; [now apply request_whitelisted|]. split; [|split].
    + intros Hnone. rewrite Hnone. split; discriminate.
    + discriminate.
    + intros _. repeat split.
  - destruct (log_blocked_request_returns w method host path body_size st)
      as (st' & Hlog).
    exists (http.set_response flow (forbidden method host)), st'.
    split; [now rewrite is_domain_allowed_run, Ha|]. split.
    { rewrite (request_blocked w flow st content Hm Ha Hc).
      fold method host path body_size. now rewrite Hlog. }
    split; [|split].
    + intros _. split; reflexivity.
    + intros _. do 6 (split; [reflexivity|]). split; [exact Hlog|].
      intros Hok. rewrite (log_blocked_request_ok _ _ _ _ _ _ Hok) in Hlog.
      injection Hlog as <-. reflexivity.
    + discriminate.
Qed.

Lemma mutation_blocked_iff_not_allowed_witness :
  exists (b : bool) (flow' : http.HTTPFlow) (st' : state),
    is_domain_allowed "evil.test" Sample.st = (Ok b, Sample.st) /\
    request Sample.calm (Sample.flow "PUT" "evil.test") Sample.st
    = (Ok flow', st') /\
    (http.response (Sample.flow "PUT" "evil.test") = None ->
     (http.response flow' = Some (forbidden "PUT" "evil.test") <-> b = false)) /\
    (b = false ->
       flow' = http.set_response (Sample.flow "PUT" "evil.test")
                 (forbidden "PUT" "evil.test") /\
       http.request flow' = http.request (Sample.flow "PUT" "evil.test") /\
       http.response flow' = Some (forbidden "PUT" "evil.test") /\
       http.status_code (forbidden "PUT" "evil.test") = 403%Z /\
       http.headers (forbidden "PUT" "evil.test")
       = [("Content-Type", "application/json")] /\
       http.body (forbidden "PUT" "evil.test")
       = Json.dumps
           [ ("error", Json.Str "Request blocked by network filter");
             ("message", Json.Str "PUT requests to evil.test are not allowed");
             ("hint", Json.Str "Add this domain to whitelist.json if needed") ] /\
       log_blocked_request Sample.calm "PUT" "evil.test" "/upload" 2 Sample.st
       = (Ok tt, st') /\
       (first_fault Sample.calm = None ->
        log_file st' =
          Some (audit_line Sample.calm "PUT" "evil.test" "/upload" 2
                ++ [Json.newline]))) /\
    (b = true ->
       flow' = Sample.flow "PUT" "evil.test" /\
       log_file st' = None /\
       log_dir_exists st' = false /\
       ctx_log st' = [(info, "ALLOWED (whitelisted): PUT evil.test/upload")]).
Proof.
  apply (mutation_blocked_iff_not_allowed Sample.calm
           (Sample.flow "PUT" "evil.test") Sample.st
           (Some [Byte.x68; Byte.x69])).
  - right; left. reflexivity.
  - reflexivity.
Defined.

Lemma body_size_of_len (content : option (list Byte.byte)) :
  body_size_of content =
  match content with
  | Some c => Z.of_nat (length c)
  | None => 0%Z
  end.
Proof. destruct content as [[|b c]|]; reflexivity. Qed.

(** What one call of the hook does, by the verdict and by whether the body
    can be read. *)
Lemma request_cases (w : environ) (flow : http.HTTPFlow) (st : state) :
  let method := http.method (http.request flow) in
  let host := http.host (http.request flow) in
  let path := http.path (http.request flow) in
  (refused (ALLOWED_DOMAINS st) flow = false /\
   exists st',
     request w flow st = (Ok flow, st') /\
     ALLOWED_DOMAINS st' = ALLOWED_DOMAINS st /\
     log_file st' = log_file st /\
     log_dir_exists st' = log_dir_exists st) \/
  (refused (ALLOWED_DOMAINS st) flow = true /\
   exists c st',
     http.content (http.request flow) = Ok c /\
     request w flow st
     = (Ok (http.set_response flow (forbidden method host)), st') /\
     log_blocked_request w method host path (body_size_of c) st = (Ok tt, st')) \/
  (refused (ALLOWED_DOMAINS st) flow = true /\
   exists e,
     http.content (http.request flow) = Raise e /\
     request w flow st = (Raise e, st)).
Proof.
  intros method host path. unfold refused. fold method host.
  destruct (decide (method ∈ SAFE_METHODS)) as [Hs | Hs].
  - left. assert (Hm : method ∉ MUTATION_METHODS)
      by (intros Hm; now apply mutation_not_safe in Hm).
    rewrite (bool_decide_eq_false_2 _ Hm). split; [reflexivity|].
    eexists. split; [now apply request_safe|]. now repeat split.
  - destruct (decide (method ∈ MUTATION_METHODS)) as [Hm | Hm].
    + rewrite (bool_decide_eq_true_2 _ Hm). cbn [andb].
      destruct (matches (ALLOWED_DOMAINS st) host) eqn:Ha; cbn [negb].
      * left. split; [reflexivity|].
        eexists. split; [now apply request_whitelisted|]. now repeat split.
      * right.
        destruct (http.content (http.request flow)) as [c | e] eqn:Hc.
        -- left. split; [reflexivity|].
           destruct (log_blocked_request_returns w method host path
                       (body_size_of c) st) as (st' & Hrun).
           exists c, st'. split; [reflexivity|].
           rewrite (request_blocked w flow st c Hm Ha Hc).
           fold method host path. now rewrite Hrun.
        -- right. split; [reflexivity|]. exists e. split; [reflexivity|].
           now apply request_unreadable.
    + left. rewrite (bool_decide_eq_false_2 _ Hm). split; [reflexivity|].
      eexists. split; [now apply request_unknown|]. now repeat split.
Qed.

Lemma refused_spec (flow : http.HTTPFlow) (st : state) :
  refused (ALLOWED_DOMAINS st) flow = true <->
  http.method (http.request flow) ∈ MUTATION_METHODS /\
  is_domain_allowed (http.host (http.request flow)) st = (Ok false, st).
Proof.
  unfold refused. rewrite andb_true_iff, bool_decide_eq_true, negb_true_iff.
  rewrite is_domain_allowed_run. split.
  - intros [Hm ->]. now split.
  - intros [Hm [= ->]]. now split.
Qed.

(** C4, as stated, fails where the write raises: the request is blocked
    (the 403 is attached), the audit file has been created by [open], but
    it holds no line. *)
Lemma blocked_without_log_line :
  let flow := Sample.flow "POST" "evil.test" in
  blocked Sample.disk_full flow Sample.st /\
  log_file (snd (request Sample.disk_full flow Sample.st)) = Some "" /\
  ~ (exists line,
       log_file (snd (request Sample.disk_full flow Sample.st))
       = Some (default "" (log_file Sample.st) ++ line ++ [Json.newline])).
Proof.
  intros flow. split; [vm_compute; reflexivity|].
  assert (Hfile : log_file (snd (request Sample.disk_full flow Sample.st)) = Some "")
    by (vm_compute; reflexivity).
  split; [exact Hfile|].
  intros (line & Hline). rewrite Hfile in Hline. simpl in Hline.
  destruct line; discriminate Hline.
Qed.

(** C4, amended. For every blocked request (the hook returns the flow,
    which came without a response, with the 403 attached) whose audit write
    does not raise, exactly one line is appended to the log file, the
    directory and the file being created when absent.  The line is the JSON
    object with exactly the fields [timestamp], [method], [host], [path],
    [body_size], [action], in which [action] is ["BLOCKED"], [method],
    [host] and [path] are the request's, and [body_size] is the byte length
    of the body (0 when there is none); it holds no line break and is
    followed by one. *)
Theorem audit_line_appended
    (w : environ) (flow flow' : http.HTTPFlow) (st st' : state) :
  let method := http.method (http.request flow) in
  let host := http.host (http.request flow) in
  let path := http.path (http.request flow) in
  http.response flow = None ->
  request w flow st = (Ok flow', st') ->
  http.response flow' <> None ->
  first_fault w = None ->
  exists (entry : Json.dict) (body_size : Z) (content : option (list Byte.byte)),
    http.response flow' = Some (forbidden method host) /\
    http.status_code (forbidden method host) = 403%Z /\
    log_dir_exists st' = true /\
    log_file st' =
      Some (default "" (log_file st) ++ Json.dumps entry ++ [Json.newline]) /\
    Json.single_line (Json.dumps entry) = true /\
    Json.keys entry
    = ["timestamp"; "method"; "host"; "path"; "body_size"; "action"] /\
    entry =
      [ ("timestamp", Json.Str (utcnow_isoformat w));
        ("method", Json.Str method);
        ("host", Json.Str host);
        ("path", Json.Str path);
        ("body_size", Json.Int body_size);
        ("action", Json.Str "BLOCKED") ] /\
    http.content (http.request flow) = Ok content /\
    body_size =
      match content with
      | Some c => Z.of_nat (length c)
      | None => 0%Z
      end.
Proof.
  intros method host path Hnone Hrun Hresp Hok.
  destruct (request_cases w flow st)
    as [(_ & st1 & Hrun1 & _) | [(_ & c & st1 & Hc & Hrun1 & Hlog) | (_ & e & _ & Hrun1)]];
    rewrite Hrun in Hrun1.
  - injection Hrun1 as -> _. congruence.
  - injection Hrun1 as -> ->. fold method host path in Hlog.
    rewrite (log_blocked_request_ok _ _ _ _ _ _ Hok) in Hlog.
    injection Hlog as <-.
    exists (log_entry (utcnow_isoformat w) method host path (body_size_of c)),
      (body_size_of c), c.
    do 4 (split; [reflexivity|]).
    split; [apply JsonFacts.dumps_single_line|].
    do 2 (split; [reflexivity|]). split; [exact Hc | apply body_size_of_len].
  - discriminate Hrun1.
Qed.

Lemma audit_line_appended_witness :
  exists (entry : Json.dict) (body_size : Z) (content : option (list Byte.byte)),
    http.response
      (http.set_response (Sample.flow "POST" "evil.test")
         (forbidden "POST" "evil.test"))
    = Some (forbidden "POST" "evil.test") /\
    http.status_code (forbidden "POST" "evil.test") = 403%Z /\
    log_dir_exists (snd (request Sample.calm (Sample.flow "POST" "evil.test") Sample.st))
    = true /\
    log_file (snd (request Sample.calm (Sample.flow "POST" "evil.test") Sample.st))
    = Some (Json.dumps entry ++ [Json.newline]) /\
    Json.single_line (Json.dumps entry) = true /\
    Json.keys entry
    = ["timestamp"; "method"; "host"; "path"; "body_size"; "action"] /\
    entry =
      [ ("timestamp", Json.Str "2024-05-01T10:00:00");
        ("method", Json.Str "POST");
        ("host", Json.Str "evil.test");
        ("path", Json.Str "/upload");
        ("body_size", Json.Int body_size);
        ("action", Json.Str "BLOCKED") ] /\
    http.content (http.request (Sample.flow "POST" "evil.test")) = Ok content /\
    body_size =
      match content with
      | Some c => Z.of_nat (length c)
      | None => 0%Z
      end.
Proof.
  apply (audit_line_appended Sample.calm (Sample.flow "POST" "evil.test")
           (http.set_response (Sample.flow "POST" "evil.test")
              (forbidden "POST" "evil.test"))
           Sample.st
           (snd (request Sample.calm (Sample.flow "POST" "evil.test") Sample.st))).
  - reflexivity.
  - vm_compute. reflexivity.
  - discriminate.
  - reflexivity.
Defined.

(** C6, at the failing input. A POST to a host that is not allowed, with a
    body whose Content-Encoding cannot be decoded: reading
    [flow.request.content] raises before the audit write and before the 403
    is attached, so the exception leaves the hook and the request is not
    blocked, with a file system that answers well as with one that does
    not. *)
Lemma unreadable_body_is_not_blocked :
  let flow := Sample.unreadable "POST" "evil.test" in
  http.method (http.request flow) ∈ MUTATION_METHODS /\
  is_domain_allowed "evil.test" Sample.st = (Ok false, Sample.st) /\
  request Sample.calm flow Sample.st = (Raise Sample.undecodable, Sample.st) /\
  request Sample.read_only flow Sample.st = (Raise Sample.undecodable, Sample.st) /\
  ~ blocked Sample.calm flow Sample.st /\
  ~ blocked Sample.read_only flow Sample.st.
Proof.
  intros flow.
  assert (Hm : http.method (http.request flow) ∈ MUTATION_METHODS)
    by (apply mutation_methods_spec; now left).
  assert (Ha : matches (ALLOWED_DOMAINS Sample.st) (http.host (http.request flow))
               = false) by (vm_compute; reflexivity).
  assert (Hrun : forall w, request w flow Sample.st
                           = (Raise Sample.undecodable, Sample.st))
    by (intros w; now apply request_unreadable).
  split; [exact Hm|]. split; [vm_compute; reflexivity|].
  split; [apply Hrun|]. split; [apply Hrun|].
  unfold blocked. rewrite !Hrun. split; discriminate.
Qed.

Lemma lookup_last_absent key (members : list (str * Whitelist.json)) :
  key ∉ map fst members -> Whitelist.lookup_last key members = None.
Proof.
  induction members as [|[k v] members IH]; simpl; [reflexivity|].
  intros Hnot. apply not_elem_of_cons in Hnot as [Hne Hrest].
  rewrite (IH Hrest). case_bool_decide as Hk; [congruence | reflexivity].
Qed.

Lemma load_failed_empty (f : Whitelist.whitelist_file) (st : state) :
  load_failed f ->
  exists st', Whitelist.load_whitelist f st = (Ok ∅, st') /\
              log_file st' = log_file st /\
              log_dir_exists st' = log_dir_exists st.
Proof.
  unfold Whitelist.load_whitelist.
  destruct f as [e | e | data]; simpl; intros Hf.
  - eexists. split; [reflexivity|]. now split.
  - eexists. split; [reflexivity|]. now split.
  - destruct data; simpl in *; try (eexists; split; [reflexivity|]; now split).
    apply bool_decide_eq_false in Hf. rewrite (lookup_last_absent _ _ Hf).
    simpl. eexists. split; [reflexivity|]. now split.
Qed.

Lemma domains_of_empty : Whitelist.domains_of ∅ = Some ∅.
Proof. unfold Whitelist.domains_of. now rewrite elements_empty. Qed.


(** C9, at the failing input. The whitelist file cannot be opened, so the
    filter starts with the empty whitelist; a DELETE whose body has a
    Content-Encoding that cannot be decoded then makes the read of
    [flow.request.content] raise before the 403 is attached: the exception
    leaves the hook and the request is not blocked.  (The same defect as
    for C6.) *)
Lemma empty_whitelist_unreadable_body :
  let f := Whitelist.OpenRaises
             (Exception "FileNotFoundError"
                "[Errno 2] No such file or directory: '/app/whitelist.json'") in
  let flow := Sample.unreadable "DELETE" "example.com" in
  load_failed f /\
  exists st0,
    fst (Whitelist.load_whitelist f Sample.st_empty) = Ok ∅ /\
    startup f Sample.st_empty = Some st0 /\
    ALLOWED_DOMAINS st0 = ∅ /\
    http.method (http.request flow) ∈ MUTATION_METHODS /\
    request Sample.calm flow st0 = (Raise Sample.undecodable, st0) /\
    ~ blocked Sample.calm flow st0.
Proof.
  intros f flow. split; [exact I|].
  destruct (load_failed_empty f Sample.st_empty I) as (st1 & Hload & _).
  unfold startup. rewrite Hload, domains_of_empty. cbn [mbind option_bind].
  eexists. split; [reflexivity|]. split; [reflexivity|]. split; [reflexivity|].
  assert (Hm : http.method (http.request flow) ∈ MUTATION_METHODS)
    by (apply mutation_methods_spec; do 2 right; now left).
  split; [exact Hm|].
  assert (Hrun : forall st, ALLOWED_DOMAINS st = ∅ ->
                            request Sample.calm flow st = (Raise Sample.undecodable, st)).
  { intros st Hst. apply request_unreadable; [exact Hm | | reflexivity].
    rewrite Hst. apply matches_empty. }
  split; [now apply Hrun|]. unfold blocked. rewrite Hrun by reflexivity. discriminate.
Qed.


(** * Further properties of the filter *)

(** ** Loading a whitelist that is there *)

Module WhitelistFacts.
Import Whitelist.

Lemma hash_all_strings (l : list str) :
  hash_all (map JStr l) = Ok (map AStr l).
Proof. induction l as [|s l IH]; simpl; [reflexivity | now rewrite IH]. Qed.

Lemma hash_all_unhashable (items : list json) :
  existsb unhashable items = true -> exists e, hash_all items = Raise e.
Proof.
  induction items as [|v items IH]; simpl; [discriminate|].
  destruct v; simpl; intros H; try (destruct (IH H) as [e ->]; now exists e);
    eexists; reflexivity.
Qed.

Lemma mapM_domain_of (L : list atom) :
  Forall (fun a => exists s, a = AStr s) L ->
  exists L', mapM domain_of L = Some L' /\ L = map AStr L'.
Proof.
  induction 1 as [|a L [s ->] _ (L' & HL' & ->)].
  - now exists [].
  - exists (s :: L'). split; [|reflexivity]. cbn. now rewrite HL'.
Qed.

(** A loaded set that holds strings only is taken as the set of those
    strings. *)
Lemma domains_of_strings (S : gset atom) :
  (forall a, a ∈ S -> exists s, a = AStr s) ->
  exists D, domains_of S = Some D /\ forall s, s ∈ D <-> AStr s ∈ S.
Proof.
  intros HS. unfold domains_of.
  destruct (mapM_domain_of (elements S)) as (L' & HL' & Hel).
  { apply Forall_forall. intros a Ha. apply HS. now apply elem_of_elements. }
  rewrite HL'. eexists. split; [reflexivity|]. intros s.
  rewrite elem_of_list_to_set, <- elem_of_elements, Hel.
  split.
  - intros Hs. apply list_elem_of_In, in_map. now apply list_elem_of_In.
  - intros Hs. apply list_elem_of_In, in_map_iff in Hs as (s' & [= ->] & Hs').
    now apply list_elem_of_In.
Qed.

Lemma elem_of_chars (a : atom) (s : str) :
  a ∈ chars s <-> exists c, a = AStr [c] /\ In c s.
Proof.
  induction s as [|x s IH]; simpl.
  - split; [intros H; inversion H | intros (c & _ & [])].
  - rewrite elem_of_cons, IH. split.
    + intros [-> | (c & -> & Hc)]; [exists x | exists c]; auto.
    + intros (c & -> & [-> | Hc]); [now left | right; now exists c].
Qed.

End WhitelistFacts.

Lemma load_document_value members v (st : state) :
  Whitelist.lookup_last "allowedDomains" members = Some v ->
  Whitelist.read_domains (Whitelist.Loaded (Whitelist.JObj members))
  = Whitelist.set_of v.
Proof. intros H. simpl. now rewrite H. Qed.

(** X1. When the last [allowedDomains] member of the document is a list of
    strings, [load_whitelist] returns the set of exactly these strings and
    reports nothing; the filter starts with them as its whitelist (order
    and repetitions in the file play no part), and the audit file and the
    event log are as before. *)
Theorem load_whitelist_lists_domains
    (members : list (str * Whitelist.json)) (l : list str) (st : state) :
  Whitelist.lookup_last "allowedDomains" members
  = Some (Whitelist.JArr (map Whitelist.JStr l)) ->
  Whitelist.load_whitelist (Whitelist.Loaded (Whitelist.JObj members)) st
  = (Ok (list_to_set (map Whitelist.AStr l)), st) /\
  exists st0,
    startup (Whitelist.Loaded (Whitelist.JObj members)) st = Some st0 /\
    (forall d, d ∈ ALLOWED_DOMAINS st0 <-> d ∈ l) /\
    log_file st0 = log_file st /\
    log_dir_exists st0 = log_dir_exists st /\
    ctx_log st0 = ctx_log st.
Proof.
  intros Hlast.
  assert (Hload :
    Whitelist.load_whitelist (Whitelist.Loaded (Whitelist.JObj members)) st
    = (Ok (list_to_set (map Whitelist.AStr l)), st)).
  { unfold Whitelist.load_whitelist.
    rewrite (load_document_value _ _ st Hlast). cbn [Whitelist.set_of].
    now rewrite WhitelistFacts.hash_all_strings. }
  split; [exact Hload|].
  unfold startup. rewrite Hload.
  destruct (WhitelistFacts.domains_of_strings
              (list_to_set (map Whitelist.AStr l))) as (D & -> & HD).
  { intros a Ha. apply elem_of_list_to_set, list_elem_of_In, in_map_iff in Ha
      as (s & <- & _). now exists s. }
  eexists. split; [reflexivity|]. split; [|now repeat split].
  intros d. cbn [ALLOWED_DOMAINS]. rewrite HD, elem_of_list_to_set. split.
  - intros Hd. apply list_elem_of_In, in_map_iff in Hd as (s & [= ->] & Hs).
    now apply list_elem_of_In.
  - intros Hd. apply list_elem_of_In, in_map. now apply list_elem_of_In.
Qed.

Lemma load_whitelist_lists_domains_witness :
  let members :=
    [ ("allowedDomains", Whitelist.JArr [Whitelist.JStr "old.example"]);
      ("comment", Whitelist.JStr "second entry wins");
      ("allowedDomains",
       Whitelist.JArr (map Whitelist.JStr ["example.com"; "github.com"; "example.com"])) ] in
  Whitelist.load_whitelist (Whitelist.Loaded (Whitelist.JObj members)) Sample.st_empty
  = (Ok (list_to_set (map Whitelist.AStr ["example.com"; "github.com"; "example.com"])),
     Sample.st_empty) /\
  exists st0,
    startup (Whitelist.Loaded (Whitelist.JObj members)) Sample.st_empty = Some st0 /\
    (forall d, d ∈ ALLOWED_DOMAINS st0 <-> d ∈ ["example.com"; "github.com"; "example.com"]) /\
    log_file st0 = Some "" /\
    log_dir_exists st0 = true /\
    ctx_log st0 = [].
Proof.
  intros members.
  apply (load_whitelist_lists_domains members
           ["example.com"; "github.com"; "example.com"] Sample.st_empty).
  reflexivity.
Defined.

(** X2. An [allowedDomains] member that is there but cannot be made into a
    set (a null, a boolean, a number, or a list that holds a list or an
    object) also fails closed: it raises inside the [try], so that
    [load_whitelist] reports one error and returns the empty set, and the
    filter starts with an empty whitelist. *)
Theorem unusable_domains_fail_closed
    (members : list (str * Whitelist.json)) (v : Whitelist.json) (st : state) :
  Whitelist.lookup_last "allowedDomains" members = Some v ->
  not_iterable v = true \/
  (exists items, v = Whitelist.JArr items /\ existsb unhashable items = true) ->
  exists e,
    Whitelist.load_whitelist (Whitelist.Loaded (Whitelist.JObj members)) st
    = (Ok ∅, add_ctx_log (error, "Failed to load whitelist: " ++ exn_str e) st) /\
    exists st0,
      startup (Whitelist.Loaded (Whitelist.JObj members)) st = Some st0 /\
      ALLOWED_DOMAINS st0 = ∅.
Proof.
  intros Hlast Hbad.
  assert (Hraise : exists e, Whitelist.set_of v = Raise e).
  { destruct Hbad as [Hni | (items & -> & Hun)].
    - destruct v; try discriminate Hni; eexists; reflexivity.
    - destruct (WhitelistFacts.hash_all_unhashable items Hun) as [e He].
      exists e. cbn [Whitelist.set_of]. now rewrite He. }
  destruct Hraise as [e He]. exists e.
  assert (Hload :
    Whitelist.load_whitelist (Whitelist.Loaded (Whitelist.JObj members)) st
    = (Ok ∅, add_ctx_log (error, "Failed to load whitelist: " ++ exn_str e) st)).
  { unfold Whitelist.load_whitelist.
    now rewrite (load_document_value _ _ st Hlast), He. }
  split; [exact Hload|].
  unfold startup. rewrite Hload, domains_of_empty.
  eexists. split; reflexivity.
Qed.

Lemma unusable_domains_fail_closed_witness :
  let members := [("allowedDomains", Whitelist.JNull)] in
  exists e,
    Whitelist.load_whitelist (Whitelist.Loaded (Whitelist.JObj members)) Sample.st_empty
    = (Ok ∅,
       add_ctx_log (error, "Failed to load whitelist: " ++ exn_str e) Sample.st_empty) /\
    exists st0,
      startup (Whitelist.Loaded (Whitelist.JObj members)) Sample.st_empty = Some st0 /\
      ALLOWED_DOMAINS st0 = ∅.
Proof.
  intros members.
  apply (unusable_domains_fail_closed members Whitelist.JNull Sample.st_empty).
  - reflexivity.
  - left. reflexivity.
Defined.

(** X3. An [allowedDomains] member that is a bare string instead of a list
    is taken character by character: the whitelist then holds exactly the
    one-character strings made of its characters, so the domain it spells
    is not a member unless it is one character long. *)
Theorem bare_string_is_split
    (members : list (str * Whitelist.json)) (s : str) (st : state) :
  Whitelist.lookup_last "allowedDomains" members = Some (Whitelist.JStr s) ->
  exists st0,
    startup (Whitelist.Loaded (Whitelist.JObj members)) st = Some st0 /\
    (forall d, d ∈ ALLOWED_DOMAINS st0 <->
               exists c, d = [c] /\ In c s) /\
    ((2 <= length s)%nat -> s ∉ ALLOWED_DOMAINS st0).
Proof.
  intros Hlast. unfold startup, Whitelist.load_whitelist.
  rewrite (load_document_value _ _ st Hlast). cbn [Whitelist.set_of].
  change ((mret (list_to_set (Whitelist.chars s)) : M (gset Whitelist.atom)) st)
    with (Ok (list_to_set (Whitelist.chars s) : gset Whitelist.atom), st).
  destruct (WhitelistFacts.domains_of_strings (list_to_set (Whitelist.chars s)))
    as (D & -> & HD).
  { intros a Ha. apply elem_of_list_to_set, WhitelistFacts.elem_of_chars in Ha
      as (c & -> & _). eauto. }
  eexists. split; [reflexivity|]. cbn [ALLOWED_DOMAINS].
  assert (Hmem : forall d, d ∈ D <->
                 exists c, d = [c] /\ In c s).
  { intros d. rewrite HD, elem_of_list_to_set, WhitelistFacts.elem_of_chars. split.
    - intros (c & [= ->] & Hc). now exists c.
    - intros (c & -> & Hc). now exists c. }
  split; [exact Hmem|].
  intros Hlen Hin. apply Hmem in Hin as (c & -> & _). simpl in Hlen. lia.
Qed.

Lemma bare_string_is_split_witness :
  let members := [("allowedDomains", Whitelist.JStr "example.com")] in
  exists st0,
    startup (Whitelist.Loaded (Whitelist.JObj members)) Sample.st_empty = Some st0 /\
    (forall d, d ∈ ALLOWED_DOMAINS st0 <->
               exists c, d = [c] /\ In c "example.com") /\
    ((2 <= length "example.com")%nat -> "example.com" ∉ ALLOWED_DOMAINS st0).
Proof.
  intros members.
  apply (bare_string_is_split members "example.com" Sample.st_empty).
  reflexivity.
Defined.

(** ** More on the whitelist match *)

Lemma allowed_matches (host : str) (st : state) (b : bool) :
  is_domain_allowed host st = (Ok b, st) <-> matches (ALLOWED_DOMAINS st) host = b.
Proof.
  rewrite is_domain_allowed_run. split; [now intros [= ->] | now intros ->].
Qed.

(** The last character of a text made of two parts is the last character
    of the second part, when there is one. *)
Lemma last_char_of_append (a b q : str) (c : N) :
  a ++ b = q ++ [c] -> b <> "" -> exists b', b = b' ++ [c].
Proof.
  revert q. induction a as [|x a IH]; intros q H Hb.
  - now exists q.
  - destruct q as [|y q].
    + injection H as _ H.
      destruct a; [now contradict Hb | discriminate H].
    + injection H as _ H. now apply (IH q).
Qed.

(** X4. Adding domains to the whitelist never takes an allowance away: a
    host allowed under a whitelist is allowed under every larger one. *)
Theorem larger_whitelist_allows_more (host : str) (st1 st2 : state) :
  ALLOWED_DOMAINS st1 ⊆ ALLOWED_DOMAINS st2 ->
  is_domain_allowed host st1 = (Ok true, st1) ->
  is_domain_allowed host st2 = (Ok true, st2).
Proof.
  intros Hsub. rewrite !allowed_matches, !matches_spec.
  intros [Hin | (d & Hd & Hs)]; [left | right; exists d]; auto.
Qed.

Lemma larger_whitelist_allows_more_witness :
  is_domain_allowed "api.example.com"
    (State ({[ "example.com" ]} ∪ {[ "github.com" ]}) false None [])
  = (Ok true, State ({[ "example.com" ]} ∪ {[ "github.com" ]}) false None []).
Proof.
  apply (larger_whitelist_allows_more "api.example.com" Sample.st
           (State ({[ "example.com" ]} ∪ {[ "github.com" ]}) false None [])).
  - apply union_subseteq_l.
  - vm_compute. reflexivity.
Defined.

(** X5. Allowance passes down to subdomains at any depth: if a host is
    allowed, so is every host that ends with a dot followed by it. *)
Theorem subdomains_of_allowed_host (host p : str) (st : state) :
  is_domain_allowed host st = (Ok true, st) ->
  is_domain_allowed (p ++ "." ++ host) st = (Ok true, st).
Proof.
  rewrite !allowed_matches, !matches_spec.
  intros [Hin | (d & Hd & q & ->)]; right.
  - exists host. split; [exact Hin | now exists p].
  - exists d. split; [exact Hd|]. exists (p ++ "." ++ q).
    now rewrite <- !app_assoc.
Qed.

Lemma subdomains_of_allowed_host_witness :
  is_domain_allowed ("cdn.eu" ++ "." ++ "api.example.com") Sample.st
  = (Ok true, Sample.st).
Proof.
  apply (subdomains_of_allowed_host "api.example.com" "cdn.eu" Sample.st).
  vm_compute. reflexivity.
Defined.

(** X6. Whitelisting a name never allows anything shorter, its parent
    domain for one: a host shorter than every whitelisted domain is
    refused. *)
Theorem shorter_host_refused (host : str) (st : state) :
  (forall d, d ∈ ALLOWED_DOMAINS st -> (length host < length d)%nat) ->
  is_domain_allowed host st = (Ok false, st).
Proof.
  intros Hshort. apply allowed_matches.
  destruct (matches (ALLOWED_DOMAINS st) host) eqn:Hm; [exfalso | reflexivity].
  apply matches_spec in Hm as [Hin | (d & Hd & q & ->)].
  - specialize (Hshort host Hin). lia.
  - specialize (Hshort d Hd). rewrite !length_app in Hshort. lia.
Qed.

Lemma shorter_host_refused_witness :
  is_domain_allowed "example.com" (State {[ "api.example.com" ]} false None [])
  = (Ok false, State {[ "api.example.com" ]} false None []).
Proof.
  apply (shorter_host_refused "example.com"
           (State {[ "api.example.com" ]} false None [])).
  intros d Hd. cbn [ALLOWED_DOMAINS] in Hd.
  apply elem_of_singleton_1 in Hd. rewrite Hd. simpl. lia.
Defined.

(** X7. A host written with a trailing dot is refused as long as no
    whitelisted domain is empty or itself ends with a dot: ["example.com."]
    does not pass for a whitelisted ["example.com"]. *)
Theorem trailing_dot_refused (host : str) (st : state) :
  (forall d, d ∈ ALLOWED_DOMAINS st ->
             d <> "" /\ PyStr.endswith d "." = false) ->
  PyStr.endswith host "." = true ->
  is_domain_allowed host st = (Ok false, st).
Proof.
  intros Hdoms Hdot. apply allowed_matches.
  destruct (matches (ALLOWED_DOMAINS st) host) eqn:Hm; [exfalso | reflexivity].
  apply matches_spec in Hm as [Hin | (d & Hd & q & Hq)].
  - destruct (Hdoms host Hin) as [_ Hno]. congruence.
  - destruct (Hdoms d Hd) as [Hne Hno].
    apply PyStrFacts.endswith_spec in Hdot as [q' Hq']. rewrite Hq in Hq'.
    rewrite app_assoc in Hq'.
    apply last_char_of_append in Hq' as [d' Hd']; [|exact Hne].
    assert (PyStr.endswith d "." = true)
      by (apply PyStrFacts.endswith_spec; now exists d').
    congruence.
Qed.

Lemma trailing_dot_refused_witness :
  is_domain_allowed "example.com." Sample.st = (Ok false, Sample.st).
Proof.
  apply (trailing_dot_refused "example.com." Sample.st).
  - intros d Hd. cbn [ALLOWED_DOMAINS Sample.st] in Hd.
    apply elem_of_singleton_1 in Hd. rewrite Hd. split; [discriminate|].
    vm_compute. reflexivity.
  - vm_compute. reflexivity.
Defined.

(** ** The audit file and the hook, in every environment *)

(** X8. The audit file is append-only.  Whatever the operating system
    answers, [log_blocked_request] returns normally and leaves what the
    file held as a prefix of what it holds afterwards.  What it adds is a
    prefix of the line with its line break: all of it when nothing raised,
    and possibly only its first characters, or none, when an operation
    raised.  It never removes the file or its directory, and it ends by
    handing the [BLOCKED] warning to the event log, after at most one
    write-failure error. *)
Theorem audit_file_is_append_only
    (w : environ) (method host path : str) (body_size : Z) (st : state) :
  exists st' added,
    log_blocked_request w method host path body_size st = (Ok tt, st') /\
    default "" (log_file st') = default "" (log_file st) ++ added /\
    added `prefix_of` audit_line w method host path body_size ++ [Json.newline] /\
    (first_fault w = None ->
     added = audit_line w method host path body_size ++ [Json.newline]) /\
    (log_file st <> None -> log_file st' <> None) /\
    (log_dir_exists st = true -> log_dir_exists st' = true) /\
    (exists events,
       ctx_log st' =
         ctx_log st ++ events ++ [blocked_warning method host path body_size] /\
       (events = [] \/ exists e, events = [write_failure e])).
Proof.
  destruct (log_blocked_request_cases w method host path body_size st)
    as (st' & added & events & Hrun & _ & Hfile & Hpre & Hlog & Hok & Hfault
        & Hkeep & Hdir).
  exists st', added. do 3 (split; [assumption|]).
  split; [intros H; now apply Hok|]. do 2 (split; [assumption|]).
  exists events. split; [exact Hlog|].
  destruct (first_fault w) as [e|] eqn:Hf.
  - right. exists e. now apply Hfault.
  - left. now apply Hok.
Qed.

(** X10. Whatever code points the method, the host and the path hold
    (quotes, backslashes, control characters, characters outside ASCII,
    surrogates), the audit line and the body of the 403 answer consist of
    printable ASCII characters only. *)
Theorem written_text_is_printable_ascii
    (w : environ) (method host path : str) (body_size : Z) :
  Json.all_chars Json.printable (audit_line w method host path body_size) = true /\
  Json.all_chars Json.printable (http.body (forbidden method host)) = true.
Proof. split; apply JsonFacts.dumps_printable. Qed.

(** X11. The hook never rewrites the request, and the only exception that
    can leave it is the one raised by reading the body.  When it returns,
    the flow has the same request part and is either exactly as it came or
    has the 403 answer attached; it always returns when the body can be
    read.  When it raises, the request had a mutating method and a host
    that is not allowed, the exception is the one the read of [content]
    raised, and nothing was logged, written or attached.  (For every
    whitelist of domain strings and all answers of the operating
    system.) *)
Theorem request_returns_the_request
    (w : environ) (flow : http.HTTPFlow) (st : state) :
  (forall flow' st',
     request w flow st = (Ok flow', st') ->
     http.request flow' = http.request flow /\
     (flow' = flow \/
      http.response flow'
      = Some (forbidden (http.method (http.request flow))
                        (http.host (http.request flow))))) /\
  (forall e st',
     request w flow st = (Raise e, st') ->
     st' = st /\
     http.content (http.request flow) = Raise e /\
     http.method (http.request flow) ∈ MUTATION_METHODS /\
     is_domain_allowed (http.host (http.request flow)) st = (Ok false, st)) /\
  (readable flow -> exists flow' st', request w flow st = (Ok flow', st')).
Proof.
  destruct (request_cases w flow st)
    as [(_ & st1 & Hrun & _) | [(_ & c & st1 & Hc & Hrun & _) | (Hr & e1 & Hc & Hrun)]];
    rewrite Hrun.
  - split; [|split].
    + intros flow' st' [= <- <-]. auto.
    + discriminate.
    + intros _. eauto.
  - split; [|split].
    + intros flow' st' [= <- <-]. split; [reflexivity | now right].
    + discriminate.
    + intros _. eauto.
  - split; [|split].
    + discriminate.
    + intros e st' [= <- <-]. split; [reflexivity|]. split; [exact Hc|].
      now apply refused_spec.
    + intros [c Hc']. congruence.
Qed.

(** X12. Nothing reaches the audit file without a 403: if a call of the
    hook changes the file or creates its directory, the request had a
    mutating method and a host that is not allowed, and the flow came back
    with the 403 answer. *)
Theorem audit_only_with_403
    (w : environ) (flow flow' : http.HTTPFlow) (st st' : state) :
  request w flow st = (Ok flow', st') ->
  log_file st' <> log_file st \/ log_dir_exists st' <> log_dir_exists st ->
  (http.method (http.request flow) ∈ MUTATION_METHODS /\
   is_domain_allowed (http.host (http.request flow)) st = (Ok false, st)) /\
  http.response flow'
  = Some (forbidden (http.method (http.request flow))
                    (http.host (http.request flow))).
Proof.
  intros Hrun Hchange.
  destruct (request_cases w flow st)
    as [(_ & st1 & Hrun1 & _ & Hf & Hd) | [(Hr & c & st1 & _ & Hrun1 & _) | (_ & e & _ & Hrun1)]];
    rewrite Hrun in Hrun1.
  - injection Hrun1 as _ <-. destruct Hchange; contradiction.
  - injection Hrun1 as -> _. split; [now apply refused_spec | reflexivity].
  - discriminate Hrun1.
Qed.

Lemma audit_only_with_403_witness :
  ("POST" ∈ MUTATION_METHODS /\
   is_domain_allowed "evil.test" Sample.st = (Ok false, Sample.st)) /\
  http.response
    (http.set_response (Sample.flow "POST" "evil.test") (forbidden "POST" "evil.test"))
  = Some (forbidden "POST" "evil.test").
Proof.
  apply (audit_only_with_403 Sample.calm (Sample.flow "POST" "evil.test")
           (http.set_response (Sample.flow "POST" "evil.test")
              (forbidden "POST" "evil.test"))
           Sample.st
           (snd (request Sample.calm (Sample.flow "POST" "evil.test") Sample.st))).
  - vm_compute. reflexivity.
  - left. vm_compute. discriminate.
Defined.

(** What a call does to a flow whose body can be read. *)
Lemma request_effect (w : environ) (flow : http.HTTPFlow) (st : state) :
  readable flow ->
  exists flow' st' added,
    request w flow st = (Ok flow', st') /\
    http.request flow' = http.request flow /\
    http.response flow' = verdict (ALLOWED_DOMAINS st) flow /\
    ALLOWED_DOMAINS st' = ALLOWED_DOMAINS st /\
    default "" (log_file st') = default "" (log_file st) ++ added /\
    (first_fault w = None ->
     added = audit_text (ALLOWED_DOMAINS st) [(w, flow)]).
Proof.
  intros [c0 Hc0]. unfold verdict. cbn [audit_text].
  destruct (request_cases w flow st)
    as [(Hr & st1 & Hrun & Hwl & Hf & _) | [(Hr & c & st1 & Hc & Hrun & Hlog)
       | (_ & e & Hc & _)]]; [| |congruence]; rewrite Hr.
  - exists flow, st1, []. split; [exact Hrun|]. do 3 (split; [reflexivity || assumption|]).
    split; [now rewrite Hf, app_nil_r | reflexivity].
  - destruct (log_blocked_request_cases w (http.method (http.request flow))
                (http.host (http.request flow)) (http.path (http.request flow))
                (body_size_of c) st)
      as (st2 & added & events & Hrun2 & Hwl & Hfile & _ & _ & Hok & _).
    rewrite Hlog in Hrun2. injection Hrun2 as <-.
    eexists. exists st1, added. split; [exact Hrun|].
    do 2 (split; [reflexivity|]). split; [exact Hwl|]. split; [exact Hfile|].
    intros Hcalm. destruct (Hok Hcalm) as [-> _].
    unfold logged_size. now rewrite Hc, app_nil_r.
Qed.

(** X13. The verdict depends on the method, the host and the whitelist
    only.  A call on a flow whose body can be read leaves on it the 403
    answer when the method is a mutating one and the host is not allowed,
    and the response it came with otherwise; so two such calls that agree
    on method, host, whitelist and incoming response leave the same
    response, even when the paths, the bodies, the audit files, the event
    logs and the operating system's answers differ. *)
Theorem verdict_depends_on_method_and_host
    (w1 w2 : environ) (flow1 flow2 : http.HTTPFlow) (st1 st2 : state) :
  http.method (http.request flow1) = http.method (http.request flow2) ->
  http.host (http.request flow1) = http.host (http.request flow2) ->
  ALLOWED_DOMAINS st1 = ALLOWED_DOMAINS st2 ->
  readable flow1 ->
  readable flow2 ->
  exists flow1' flow2' st1' st2',
    request w1 flow1 st1 = (Ok flow1', st1') /\
    request w2 flow2 st2 = (Ok flow2', st2') /\
    http.response flow1' = verdict (ALLOWED_DOMAINS st1) flow1 /\
    http.response flow2' = verdict (ALLOWED_DOMAINS st2) flow2 /\
    (http.response flow1 = http.response flow2 ->
     http.response flow1' = http.response flow2').
Proof.
  intros Hm Hh Hwl Hr1 Hr2.
  destruct (request_effect w1 flow1 st1 Hr1) as (f1 & s1 & _ & Hrun1 & _ & Hv1 & _).
  destruct (request_effect w2 flow2 st2 Hr2) as (f2 & s2 & _ & Hrun2 & _ & Hv2 & _).
  exists f1, f2, s1, s2. do 4 (split; [assumption|]).
  intros Hresp. rewrite Hv1, Hv2. unfold verdict, refused.
  rewrite Hm, Hh, Hwl. now destruct (bool_decide _ && negb _).
Qed.

Lemma verdict_depends_on_method_and_host_witness :
  exists flow1' flow2' st1' st2',
    request Sample.calm (Sample.flow "POST" "evil.test") Sample.st
    = (Ok flow1', st1') /\
    request Sample.size_limit
      {| http.request :=
           {| http.method := "POST"; http.host := "evil.test";
              http.path := "/other"; http.content := Ok None |};
         http.response := None |}
      (State {[ "example.com" ]} true (Some "earlier") [(info, "x")])
    = (Ok flow2', st2') /\
    http.response flow1'
    = verdict (ALLOWED_DOMAINS Sample.st) (Sample.flow "POST" "evil.test") /\
    http.response flow2'
    = verdict
        (ALLOWED_DOMAINS (State {[ "example.com" ]} true (Some "earlier") [(info, "x")]))
        {| http.request :=
             {| http.method := "POST"; http.host := "evil.test";
                http.path := "/other"; http.content := Ok None |};
           http.response := None |} /\
    (http.response (Sample.flow "POST" "evil.test")
     = http.response
         {| http.request :=
              {| http.method := "POST"; http.host := "evil.test";
                 http.path := "/other"; http.content := Ok None |};
            http.response := None |} ->
     http.response flow1' = http.response flow2').
Proof.
  apply (verdict_depends_on_method_and_host Sample.calm Sample.size_limit
           (Sample.flow "POST" "evil.test")
           {| http.request :=
                {| http.method := "POST"; http.host := "evil.test";
                   http.path := "/other"; http.content := Ok None |};
              http.response := None |}
           Sample.st
           (State {[ "example.com" ]} true (Some "earlier") [(info, "x")]));
    try reflexivity; eexists; reflexivity.
Defined.

(** ** Successive calls *)

Lemma audit_text_cons domains w flow reqs :
  audit_text domains ((w, flow) :: reqs)
  = audit_text domains [(w, flow)] ++ audit_text domains reqs.
Proof. cbn [audit_text]. now rewrite app_nil_r. Qed.

Lemma serve_cases (reqs : list (environ * http.HTTPFlow)) (st : state) :
  Forall (fun r => readable (snd r)) reqs ->
  exists flows st' added,
    serve reqs st = (Ok flows, st') /\
    Forall2 (fun r flow' =>
               http.request flow' = http.request (snd r) /\
               http.response flow' = verdict (ALLOWED_DOMAINS st) (snd r))
            reqs flows /\
    ALLOWED_DOMAINS st' = ALLOWED_DOMAINS st /\
    default "" (log_file st') = default "" (log_file st) ++ added /\
    (Forall (fun r => first_fault (fst r) = None) reqs ->
     added = audit_text (ALLOWED_DOMAINS st) reqs).
Proof.
  intros Hread. revert st.
  induction Hread as [|[w flow] reqs Hr _ IH]; intros st.
  - exists [], st, []. split; [reflexivity|]. split; [constructor|].
    split; [reflexivity|]. split; [now rewrite app_nil_r | reflexivity].
  - destruct (request_effect w flow st Hr)
      as (f1 & st1 & added1 & Hrun & Hreq & Hv & Hwl1 & Hfile1 & Hcalm1).
    destruct (IH st1) as (fl & st2 & added2 & Hrest & Hall & Hwl2 & Hfile2 & Hcalm2).
    exists (f1 :: fl), st2, (added1 ++ added2). split; [|split; [|split; [|split]]].
    + cbn [serve]. unfold mbind, M_bind. now rewrite Hrun, Hrest.
    + constructor; [now split|]. now rewrite <- Hwl1.
    + now rewrite Hwl2.
    + now rewrite Hfile2, Hfile1, app_assoc.
    + intros Hcalm. inversion Hcalm as [|r l Hw Hl]; subst.
      rewrite audit_text_cons, (Hcalm1 Hw), (Hcalm2 Hl), Hwl1. reflexivity.
Qed.

(** X14. Successive calls of the hook on requests whose bodies can be read
    never raise and return one flow per request, each with its request
    part unchanged and with the response the whitelist the run started
    with gives it (the 403 answer for a mutating method and a host that is
    not allowed, the response it came with otherwise), whatever happened to
    the earlier requests and whatever the operating system answered; the
    whitelist is the same at the end, and what the audit file held at the
    start is a prefix of what it holds at the end. *)
Theorem run_keeps_verdicts_and_file
    (reqs : list (environ * http.HTTPFlow)) (st : state) :
  Forall (fun r => readable (snd r)) reqs ->
  exists flows st',
    serve reqs st = (Ok flows, st') /\
    Forall2 (fun r flow' =>
               http.request flow' = http.request (snd r) /\
               http.response flow' = verdict (ALLOWED_DOMAINS st) (snd r))
            reqs flows /\
    ALLOWED_DOMAINS st' = ALLOWED_DOMAINS st /\
    exists added, default "" (log_file st') = default "" (log_file st) ++ added.
Proof.
  intros Hread.
  destruct (serve_cases reqs st Hread)
    as (flows & st' & added & Hrun & Hall & Hwl & Hfile & _).
  exists flows, st'. do 3 (split; [assumption|]). now exists added.
Qed.

Lemma run_keeps_verdicts_and_file_witness :
  let reqs :=
    [ (Sample.size_limit, Sample.flow "POST" "evil.test");
      (Sample.calm, Sample.flow "GET" "evil.test");
      (Sample.read_only, Sample.flow "PUT" "api.example.com") ] in
  exists flows st',
    serve reqs Sample.st = (Ok flows, st') /\
    Forall2 (fun r flow' =>
               http.request flow' = http.request (snd r) /\
               http.response flow' = verdict (ALLOWED_DOMAINS Sample.st) (snd r))
            reqs flows /\
    ALLOWED_DOMAINS st' = ALLOWED_DOMAINS Sample.st /\
    exists added, default "" (log_file st') = default "" (log_file Sample.st) ++ added.
Proof.
  intros reqs. apply (run_keeps_verdicts_and_file reqs Sample.st).
  repeat constructor; eexists; reflexivity.
Defined.

(** X15. When every body can be read and no audit write fails during a
    run, the audit file gains exactly one line for each refused request
    (mutating method, host not allowed) and nothing else, in the order of
    the requests. *)
Theorem run_logs_each_refusal_once
    (reqs : list (environ * http.HTTPFlow)) (st : state) :
  Forall (fun r => readable (snd r)) reqs ->
  Forall (fun r => first_fault (fst r) = None) reqs ->
  exists flows st',
    serve reqs st = (Ok flows, st') /\
    default "" (log_file st')
    = default "" (log_file st) ++ audit_text (ALLOWED_DOMAINS st) reqs.
Proof.
  intros Hread Hcalm.
  destruct (serve_cases reqs st Hread)
    as (flows & st' & added & Hrun & _ & _ & Hfile & Hadded).
  exists flows, st'. split; [exact Hrun|]. now rewrite Hfile, (Hadded Hcalm).
Qed.

Lemma run_logs_each_refusal_once_witness :
  let reqs :=
    [ (Sample.calm, Sample.flow "POST" "evil.test");
      (Sample.calm, Sample.flow "GET" "evil.test");
      (Sample.calm, Sample.flow "PUT" "api.example.com");
      (Sample.calm, Sample.flow "DELETE" "evilexample.com") ] in
  exists flows st',
    serve reqs Sample.st = (Ok flows, st') /\
    default "" (log_file st')
    = audit_line Sample.calm "POST" "evil.test" "/upload" 2
      ++ [Json.newline]
      ++ audit_line Sample.calm "DELETE" "evilexample.com" "/upload" 2
      ++ [Json.newline].
Proof.
  intros reqs.
  apply (run_logs_each_refusal_once reqs Sample.st).
  - repeat constructor; eexists; reflexivity.
  - repeat constructor.
Defined.

(** ** Blocking when the body can be read *)

(** X18. Blocking does not depend on the audit write.  A mutating request
    to a host that is not allowed, whose body can be read, comes back with
    the 403 as its response in every answer of the file system.  When
    [makedirs], [open] or [write] raises [e], the error is caught and ends
    as a [Failed to write log] event before the [BLOCKED] warning; what the
    file held stays, followed at most by the first characters of the
    line. *)
Theorem block_survives_write_failure
    (w : environ) (flow : http.HTTPFlow) (st : state)
    (content : option (list Byte.byte)) :
  let method := http.method (http.request flow) in
  let host := http.host (http.request flow) in
  let path := http.path (http.request flow) in
  let body_size := body_size_of content in
  method = "POST" \/ method = "PUT" \/ method = "DELETE" \/ method = "PATCH" ->
  is_domain_allowed host st = (Ok false, st) ->
  http.content (http.request flow) = Ok content ->
  exists flow' st' added,
    request w flow st = (Ok flow', st') /\
    http.request flow' = http.request flow /\
    http.response flow' = Some (forbidden method host) /\
    http.status_code (forbidden method host) = 403%Z /\
    default "" (log_file st') = default "" (log_file st) ++ added /\
    added `prefix_of` audit_line w method host path body_size ++ [Json.newline] /\
    forall e, first_fault w = Some e ->
      ctx_log st' =
        ctx_log st ++ [write_failure e; blocked_warning method host path body_size].
Proof.
  intros method host path body_size Hm Hna Hc.
  apply mutation_methods_spec in Hm. apply not_allowed_matches in Hna.
  destruct (log_blocked_request_cases w method host path body_size st)
    as (st' & added & events & Hrun & _ & Hfile & Hpre & Hlog & _ & Hfault & _).
  exists (http.set_response flow (forbidden method host)), st', added.
  split.
  { rewrite (request_blocked w flow st content Hm Hna Hc).
    fold method host path body_size. now rewrite Hrun. }
  do 3 (split; [reflexivity|]). do 2 (split; [assumption|]).
  intros e He. now rewrite Hlog, (Hfault e He).
Qed.

Lemma block_survives_write_failure_witness :
  exists flow' st' added,
    request Sample.size_limit (Sample.flow "DELETE" "evil.test") Sample.st
    = (Ok flow', st') /\
    http.request flow' = http.request (Sample.flow "DELETE" "evil.test") /\
    http.response flow' = Some (forbidden "DELETE" "evil.test") /\
    http.status_code (forbidden "DELETE" "evil.test") = 403%Z /\
    default "" (log_file st') = "" ++ added /\
    added `prefix_of`
      audit_line Sample.size_limit "DELETE" "evil.test" "/upload" 2 ++ [Json.newline] /\
    forall e, first_fault Sample.size_limit = Some e ->
      ctx_log st' =
        [write_failure e; blocked_warning "DELETE" "evil.test" "/upload" 2].
Proof.
  apply (block_survives_write_failure Sample.size_limit
           (Sample.flow "DELETE" "evil.test") Sample.st (Some [Byte.x68; Byte.x69])).
  - right; right; left. reflexivity.
  - vm_compute. reflexivity.
  - reflexivity.
Defined.

(** X19. Loading fails closed for every request whose body can be read.
    When [open] raises, when [json.load] raises, or when the parsed
    document has no [allowedDomains] member, [load_whitelist] returns the
    empty set; the filter then starts with an empty whitelist, and in every
    later state that still holds it, every POST, PUT, DELETE and PATCH with
    a readable body, to whatever host, comes back with the 403 as its
    response. *)
Theorem load_whitelist_fails_closed (f : Whitelist.whitelist_file) (st : state) :
  load_failed f ->
  (exists st1, Whitelist.load_whitelist f st = (Ok ∅, st1)) /\
  exists st0,
    startup f st = Some st0 /\
    ALLOWED_DOMAINS st0 = ∅ /\
    forall (w : environ) (flow : http.HTTPFlow) (st2 : state),
      let method := http.method (http.request flow) in
      let host := http.host (http.request flow) in
      ALLOWED_DOMAINS st2 = ALLOWED_DOMAINS st0 ->
      method = "POST" \/ method = "PUT" \/ method = "DELETE" \/ method = "PATCH" ->
      readable flow ->
      exists flow' st',
        request w flow st2 = (Ok flow', st') /\
        http.request flow' = http.request flow /\
        http.response flow' = Some (forbidden method host) /\
        http.status_code (forbidden method host) = 403%Z.
Proof.
  intros Hf. destruct (load_failed_empty f st Hf) as (st1 & Hload & _).
  split; [now exists st1|].
  unfold startup. rewrite Hload, domains_of_empty. cbn [mbind option_bind].
  eexists. split; [reflexivity|]. split; [reflexivity|].
  intros w flow st2 Hsame Hm [c Hc]. apply mutation_methods_spec in Hm.
  assert (Ha : matches (ALLOWED_DOMAINS st2) (http.host (http.request flow)) = false)
    by (rewrite Hsame; apply matches_empty).
  eexists. eexists. split; [now apply (request_blocked w flow st2 c)|].
  now repeat split.
Qed.

Lemma load_whitelist_fails_closed_witness :
  let f := Whitelist.Loaded
             (Whitelist.JObj [("allowed", Whitelist.JArr [Whitelist.JStr "example.com"])]) in
  (exists st1, Whitelist.load_whitelist f Sample.st_empty = (Ok ∅, st1)) /\
  exists st0,
    startup f Sample.st_empty = Some st0 /\
    ALLOWED_DOMAINS st0 = ∅ /\
    forall (w : environ) (flow : http.HTTPFlow) (st2 : state),
      let method := http.method (http.request flow) in
      let host := http.host (http.request flow) in
      ALLOWED_DOMAINS st2 = ALLOWED_DOMAINS st0 ->
      method = "POST" \/ method = "PUT" \/ method = "DELETE" \/ method = "PATCH" ->
      readable flow ->
      exists flow' st',
        request w flow st2 = (Ok flow', st') /\
        http.request flow' = http.request flow /\
        http.response flow' = Some (forbidden method host) /\
        http.status_code (forbidden method host) = 403%Z.
Proof.
  intros f. apply (load_whitelist_fails_closed f Sample.st_empty).
  vm_compute. reflexivity.
Defined.

(** ** A write that fails half-way *)

Lemma log_blocked_request_write_fault w m h p n st (k : nat) (e : exn) :
  makedirs_raises w = None ->
  open_raises w = None ->
  write_raises w = Some (k, e) ->
  log_blocked_request w m h p n st =
  (Ok tt,
   State (ALLOWED_DOMAINS st) true
     (Some (default "" (log_file st)
            ++ take k (audit_line w m h p n ++ [Json.newline])))
     (ctx_log st ++ [write_failure e; blocked_warning m h p n])).
Proof.
  unfold log_blocked_request, blocked_warning.
  change (Json.dumps (log_entry (utcnow_isoformat w) m h p n))
    with (audit_line w m h p n).
  generalize (audit_line w m h p n ++ [Json.newline]).
  generalize ("BLOCKED: " ++ m ++ " " ++ h ++ p ++ " (body: "
              ++ PyStr.str_int n ++ " bytes)").
  intros msg data Hmk Hop Hwr. run_audit. rewrite Hmk, Hop, Hwr. simpl.
  now rewrite app_nil_r, <- app_assoc.
Qed.

Lemma single_line_take (k : nat) (s : str) :
  Json.single_line s = true -> Json.single_line (take k s) = true.
Proof.
  unfold Json.single_line, Json.all_chars. revert k.
  induction s as [|c s IH]; intros [|k]; simpl; try reflexivity.
  intros [Hc Hs]%andb_true_iff. rewrite Hc. now apply IH.
Qed.

(** X20. A write that fails half-way leaves a fragment.  When the directory
    and the file can be opened and the write raises after [k] characters of
    the line reached the file, a request that is refused still comes back
    with the 403, and the audit file holds what it held followed by the
    first [k] characters of the line.  The fragment holds no line break, so
    the next entry written follows it on the same line. *)
Theorem failed_write_leaves_fragment
    (w : environ) (flow : http.HTTPFlow) (st : state)
    (content : option (list Byte.byte)) (k : nat) (e : exn) :
  let method := http.method (http.request flow) in
  let host := http.host (http.request flow) in
  let path := http.path (http.request flow) in
  let line := audit_line w method host path (body_size_of content) in
  method = "POST" \/ method = "PUT" \/ method = "DELETE" \/ method = "PATCH" ->
  is_domain_allowed host st = (Ok false, st) ->
  http.content (http.request flow) = Ok content ->
  makedirs_raises w = None ->
  open_raises w = None ->
  write_raises w = Some (k, e) ->
  (k <= length line)%nat ->
  exists flow' st',
    request w flow st = (Ok flow', st') /\
    http.response flow' = Some (forbidden method host) /\
    log_file st' = Some (default "" (log_file st) ++ take k line) /\
    Json.single_line (take k line) = true /\
    ctx_log st' =
      ctx_log st ++ [write_failure e;
                     blocked_warning method host path (body_size_of content)].
Proof.
  intros method host path line Hm Hna Hc Hmk Hop Hwr Hk.
  apply mutation_methods_spec in Hm. apply not_allowed_matches in Hna.
  eexists. eexists. split.
  { rewrite (request_blocked w flow st content Hm Hna Hc).
    fold method host path.
    now rewrite (log_blocked_request_write_fault _ _ _ _ _ _ k e Hmk Hop Hwr). }
  split; [reflexivity|]. fold line. cbn [log_file ctx_log].
  split; [now rewrite (take_app_le _ _ _ Hk)|].
  split; [|reflexivity].
  apply single_line_take, JsonFacts.dumps_single_line.
Qed.

Lemma failed_write_leaves_fragment_witness :
  let flow := Sample.flow "POST" "evil.test" in
  let st := State {[ "example.com" ]} true (Some "earlier") [] in
  let line := audit_line Sample.size_limit "POST" "evil.test" "/upload" 2 in
  exists flow' st',
    request Sample.size_limit flow st = (Ok flow', st') /\
    http.response flow' = Some (forbidden "POST" "evil.test") /\
    log_file st' = Some ("earlier" ++ take 43 line) /\
    Json.single_line (take 43 line) = true /\
    ctx_log st' =
      [write_failure (Exception "OSError" "[Errno 27] File too large");
       blocked_warning "POST" "evil.test" "/upload" 2].
Proof.
  intros flow st line.
  apply (failed_write_leaves_fragment Sample.size_limit flow st
           (Some [Byte.x68; Byte.x69]) 43
           (Exception "OSError" "[Errno 27] File too large")).
  - now left.
  - vm_compute. reflexivity.
  - reflexivity.
  - reflexivity.
  - reflexivity.
  - reflexivity.
  - vm_compute. repeat constructor.
Defined.

(** ** Two more edges of the match *)

(** X16. The order in which the [for] loop meets the domains plays no
    part: run over any list that enumerates the whitelist (in any order,
    with or without repetitions), the membership test followed by the loop
    gives what [is_domain_allowed] returns. *)
Theorem loop_order_is_irrelevant (host : str) (l : list str) (st : state) :
  (forall d, d ∈ l <-> d ∈ ALLOWED_DOMAINS st) ->
  is_domain_allowed host st
  = (Ok (bool_decide (host ∈ ALLOWED_DOMAINS st) || subdomain_loop host l), st).
Proof.
  intros Henum. rewrite is_domain_allowed_run. f_equal. f_equal.
  unfold matches. case_bool_decide as Hin; [reflexivity|]. cbn [orb].
  destruct (subdomain_loop host l) eqn:Hl.
  - apply subdomain_loop_spec. apply subdomain_loop_spec in Hl as (d & Hd & He).
    exists d. split; [|exact He]. now apply elem_of_elements, Henum.
  - destruct (subdomain_loop host (elements (ALLOWED_DOMAINS st))) eqn:He;
      [|reflexivity].
    apply subdomain_loop_spec in He as (d & Hd & He).
    assert (subdomain_loop host l = true); [|congruence].
    apply subdomain_loop_spec. exists d. split; [|exact He].
    now apply Henum, elem_of_elements.
Qed.

Lemma loop_order_is_irrelevant_witness :
  is_domain_allowed "api.github.com"
    (State ({[ "example.com" ]} ∪ {[ "github.com" ]}) false None [])
  = (Ok true, State ({[ "example.com" ]} ∪ {[ "github.com" ]}) false None []).
Proof.
  rewrite (loop_order_is_irrelevant "api.github.com"
             ["github.com"; "example.com"; "github.com"]
             (State ({[ "example.com" ]} ∪ {[ "github.com" ]}) false None [])).
  - vm_compute. reflexivity.
  - intros d. cbn [ALLOWED_DOMAINS].
    rewrite elem_of_union, !elem_of_singleton, !elem_of_cons, elem_of_nil. tauto.
Defined.

(** X17. An empty string among the whitelisted domains allows the empty
    host and every host that ends with a dot. *)
Theorem empty_domain_allows_trailing_dot (host : str) (st : state) :
  "" ∈ ALLOWED_DOMAINS st ->
  host = "" \/ PyStr.endswith host "." = true ->
  is_domain_allowed host st = (Ok true, st).
Proof.
  intros Hempty Hhost. apply allowed_matches, matches_spec.
  destruct Hhost as [-> | Hdot]; [now left | right].
  exists "". split; [exact Hempty|].
  apply PyStrFacts.endswith_spec in Hdot as [p ->]. now exists p.
Qed.

Lemma empty_domain_allows_trailing_dot_witness :
  is_domain_allowed "evil.test." (State {[ "" ]} false None [])
  = (Ok true, State {[ "" ]} false None []).
Proof.
  apply (empty_domain_allows_trailing_dot "evil.test." (State {[ "" ]} false None [])).
  - cbn [ALLOWED_DOMAINS]. apply elem_of_singleton_2. reflexivity.
  - right. vm_compute. reflexivity.
Defined.
